(** * DBBT_Analytics: feature derivation and conversion aggregation

    A shallow embedding of [data_loader.load_data], of
    [utils.calculate_conversion_rate] and of the top-N views of
    [tabs/trip_characteristics.py] and [tabs/advanced_visualizations.py],
    together with the properties their specification states.

    A DataFrame is a list of rows in file order.  A column that pandas may
    hold missing (NaN / NaT) is an [option]; integer columns read from the
    CSV are [Z]; real-valued columns are exact rationals [Q] (the binary64
    rounding of the source is not modelled). *)

From Stdlib Require Import ZArith QArith List String Ascii Bool Lia.
From Stdlib Require Import Sorting.Sorted Sorting.Permutation.
Import ListNotations.

Local Open Scope string_scope.
Local Open Scope list_scope.
Local Open Scope Z_scope.

(** ** Errors

    [load_data] either returns the frame or raises; [app.py] catches the
    exception and stops the page. *)

Inductive error : Type :=
| DateParseError (text : string).

Inductive result (A : Type) : Type :=
| Ok (a : A)
| Raise (e : error).

Arguments Ok {A} a.
Arguments Raise {A} e.

Definition bind {A B : Type} (m : result A) (f : A -> result B) : result B :=
  match m with
  | Ok a => f a
  | Raise e => Raise e
  end.

Notation "x <- m ;; k" := (bind m (fun x => k))
  (at level 61, m at next level, right associativity).

Fixpoint mapM {A B : Type} (f : A -> result B) (l : list A) : result (list B) :=
  match l with
  | [] => Ok []
  | a :: l' =>
      b <- f a ;;
      bs <- mapM f l' ;;
      Ok (b :: bs)
  end.

(** ** Timestamps

    A pandas [Timestamp] is a count of nanoseconds since 1970-01-01T00:00;
    a [Timedelta] is a difference of two such counts. *)

Definition Timestamp := Z.
Definition Timedelta := Z.

Definition ns_per_day : Z := 86400 * 1000000000.

(** [Timedelta.days]: whole days, rounded towards minus infinity. *)
Definition td_days (d : Timedelta) : Z := d / ns_per_day.

(** A date cell of travel.csv as [pd.to_datetime] sees it: an empty cell,
    text that denotes no representable instant, or text denoting one. *)
Inductive date_cell : Type :=
| Blank
| Garbled (text : string)
| Stamp (t : Timestamp).

(** [pd.to_datetime(col)] with the default [errors='raise']. *)
Definition to_datetime (c : date_cell) : result (option Timestamp) :=
  match c with
  | Blank => Ok None
  | Garbled s => Raise (DateParseError s)
  | Stamp t => Ok (Some t)
  end.

(** [pd.to_datetime(col, errors='coerce')]. *)
Definition to_datetime_coerce (c : date_cell) : option Timestamp :=
  match c with
  | Blank => None
  | Garbled _ => None
  | Stamp t => Some t
  end.

(** Subtraction of datetime columns followed by [.dt.days]; NaT propagates.
    The difference is taken in [Z]: it is the one pandas computes whenever
    it fits a Timedelta, a 64-bit count of nanoseconds. *)
Definition days_between (a b : option Timestamp) : option Z :=
  match a, b with
  | Some x, Some y => Some (td_days (x - y))
  | _, _ => None
  end.

(** Proleptic Gregorian date (year, month, day) of a day count since the
    epoch. *)
Definition civil_from_days (z : Z) : Z * Z * Z :=
  let z := z + 719468 in
  let era := z / 146097 in
  let doe := z - era * 146097 in
  let yoe := (doe - doe / 1460 + doe / 36524 - doe / 146096) / 365 in
  let doy := doe - (365 * yoe + yoe / 4 - yoe / 100) in
  let mp := (5 * doy + 2) / 153 in
  let d := doy - (153 * mp + 2) / 5 + 1 in
  let m := if mp <? 10 then mp + 3 else mp - 9 in
  let y := yoe + era * 400 in
  (if m <=? 2 then y + 1 else y, m, d).

Definition digit (n : Z) : string :=
  String (ascii_of_nat (48 + Z.to_nat (n mod 10))) EmptyString.

Definition pad2 (n : Z) : string := (digit (n / 10) ++ digit n)%string.
Definition pad4 (n : Z) : string := (pad2 (n / 100) ++ pad2 n)%string.

(** [Timestamp.strftime('%Y-%m')]. *)
Definition strftime_Ym (t : Timestamp) : string :=
  let '(y, m, _) := civil_from_days (td_days t) in
  (pad4 y ++ "-" ++ pad2 m)%string.

(** ** numpy.select on one row

    The first condition that holds picks its choice; when none holds the
    default is used. *)
Fixpoint np_select {A : Type} (condlist : list bool) (choicelist : list A)
  (default : A) : A :=
  match condlist, choicelist with
  | c :: cs, x :: xs => if c then x else np_select cs xs default
  | _, _ => default
  end.

(** [np.select] returns one array whose dtype is the common dtype of the
    choices and the default.  With text choices and [default=np.nan] that
    dtype is a unicode string, so the default is stored as its text. *)
Definition nan_text : string := "nan".

(** Comparisons of a possibly missing number with a constant: a comparison
    with NaN is False. *)
Definition le_c (x : option Z) (c : Z) : bool :=
  match x with Some v => v <=? c | None => false end.
Definition lt_c (x : option Z) (c : Z) : bool :=
  match x with Some v => v <? c | None => false end.
Definition gt_c (x : option Z) (c : Z) : bool :=
  match x with Some v => c <? v | None => false end.
Definition ge_c (x : option Z) (c : Z) : bool :=
  match x with Some v => c <=? v | None => false end.

Definition qlt_c (x : option Q) (c : Q) : bool :=
  match x with Some v => negb (Qle_bool c v) | None => false end.
Definition qge_c (x : option Q) (c : Q) : bool :=
  match x with Some v => Qle_bool c v | None => false end.

(** [Series.map(dict)]: a value that is no key of the dict maps to NaN. *)
Definition map_flag (one zero : string) (v : Z) : option string :=
  if v =? 1 then Some one else if v =? 0 then Some zero else None.

(** [+] on text columns: NaN on either side gives NaN. *)
Definition str_add (a b : option string) : option string :=
  match a, b with
  | Some x, Some y => Some (x ++ y)%string
  | _, _ => None
  end.

(** ** Rows *)

(** One line of travel.csv, restricted to the columns the pipeline reads. *)
Record raw_row : Type := mkRaw {
  raw_date_time : date_cell;
  raw_srch_ci : date_cell;
  raw_srch_co : date_cell;
  raw_is_mobile : Z;
  raw_is_package : Z;
  raw_is_booking : Z;
  raw_srch_adults_cnt : Z;
  raw_srch_children_cnt : Z;
  raw_orig_destination_distance : option Q;
  raw_user_location_country : Z;
  raw_hotel_market : Z
}.

(** One row of the frame [load_data] returns. *)
Record row : Type := mkRow {
  date_time : option Timestamp;
  srch_ci : option Timestamp;
  srch_co : option Timestamp;
  is_mobile : Z;
  is_package : Z;
  is_booking : Z;
  srch_adults_cnt : Z;
  srch_children_cnt : Z;
  orig_destination_distance : option Q;
  user_location_country : Z;
  hotel_market : Z;
  year_month : option string;
  trip_duration : option Z;
  booking_window : option Z;
  travel_group : string;
  duration_category : option string;
  window_category : option string;
  device_package : option string;
  distance_category : option string
}.

(** ** data_loader.load_data, column by column *)

Definition travel_group_of (adults children : Z) : string :=
  np_select
    [ (adults =? 1) && (children =? 0);
      (adults =? 2) && (children =? 0);
      (adults =? 1) && (0 <? children);
      (adults =? 2) && (0 <? children);
      (2 <? adults) ]
    [ "Solo"; "Couple"; "Single Parent"; "Family"; "Group" ]
    "Other".

Definition duration_category_of (trip_duration : option Z) : string :=
  np_select
    [ le_c trip_duration 3;
      le_c trip_duration 7;
      le_c trip_duration 14;
      gt_c trip_duration 14 ]
    [ "1-3 days"; "4-7 days"; "8-14 days"; "15+ days" ]
    nan_text.

Definition window_category_of (booking_window : option Z) : string :=
  np_select
    [ lt_c booking_window 7;
      lt_c booking_window 14;
      lt_c booking_window 30;
      lt_c booking_window 60;
      lt_c booking_window 90;
      ge_c booking_window 90 ]
    [ "0-6 days"; "7-13 days"; "14-29 days"; "30-59 days"; "60-89 days";
      "90+ days" ]
    nan_text.

Definition device_package_of (mobile package : Z) : option string :=
  str_add (str_add (map_flag "Mobile" "Desktop" mobile) (Some ", "))
          (map_flag "Package" "Non-Package" package).

Definition distance_category_of (distance : option Q) : string :=
  np_select
    [ qlt_c distance 100;
      qlt_c distance 500;
      qlt_c distance 1000;
      qlt_c distance 2000;
      qge_c distance 2000 ]
    [ "< 100"; "100-500"; "500-1000"; "1000-2000"; "> 2000" ]
    nan_text.

(** The derived columns of one row, in the order the source adds them, once
    its [date_time] is converted.  The three category columns hold the
    element [np.select] produced, which is always a text. *)
Definition enrich (r : raw_row) (dt : option Timestamp) : row :=
  let ci := to_datetime_coerce (raw_srch_ci r) in
  let co := to_datetime_coerce (raw_srch_co r) in
  let duration := days_between co ci in
  let window := days_between ci dt in
  {| date_time := dt;
     srch_ci := ci;
     srch_co := co;
     is_mobile := raw_is_mobile r;
     is_package := raw_is_package r;
     is_booking := raw_is_booking r;
     srch_adults_cnt := raw_srch_adults_cnt r;
     srch_children_cnt := raw_srch_children_cnt r;
     orig_destination_distance := raw_orig_destination_distance r;
     user_location_country := raw_user_location_country r;
     hotel_market := raw_hotel_market r;
     year_month := option_map strftime_Ym dt;
     trip_duration := duration;
     booking_window := window;
     travel_group :=
       travel_group_of (raw_srch_adults_cnt r) (raw_srch_children_cnt r);
     duration_category := Some (duration_category_of duration);
     window_category := Some (window_category_of window);
     device_package := device_package_of (raw_is_mobile r) (raw_is_package r);
     distance_category :=
       Some (distance_category_of (raw_orig_destination_distance r)) |}.

(** The derivation of one row: the strict conversion of [date_time], then
    the derived columns. *)
Definition derive (r : raw_row) : result row :=
  dt <- to_datetime (raw_date_time r) ;;
  Ok (enrich r dt).

(** [load_data] on the parsed contents of travel.csv.  The conversion of the
    [date_time] column aborts the whole call at the first cell it cannot
    parse. *)
Definition load_data (csv : list raw_row) : result (list row) :=
  mapM derive csv.

(** ** Grouping keys

    [DataFrame.groupby] sorts the groups by key (its default [sort=True]);
    a key column is integers or text. *)

Class GroupKey (K : Type) : Type := {
  key_cmp : K -> K -> comparison;
  key_cmp_eq : forall a b, key_cmp a b = Eq <-> a = b;
  key_cmp_antisym : forall a b, key_cmp b a = CompOpp (key_cmp a b);
  key_cmp_trans : forall a b c,
    key_cmp a b = Lt -> key_cmp b c = Lt -> key_cmp a c = Lt
}.

Definition key_lt {K : Type} `{GroupKey K} (a b : K) : Prop :=
  key_cmp a b = Lt.

Definition key_eqb {K : Type} `{GroupKey K} (a b : K) : bool :=
  match key_cmp a b with Eq => true | _ => false end.

Lemma Z_compare_trans (a b c : Z) :
  Z.compare a b = Lt -> Z.compare b c = Lt -> Z.compare a c = Lt.
Proof. rewrite !Z.compare_lt_iff. lia. Qed.

#[export] Instance GroupKey_Z : GroupKey Z := {|
  key_cmp := Z.compare;
  key_cmp_eq := Z.compare_eq_iff;
  key_cmp_antisym := fun a b => Z.compare_antisym a b;
  key_cmp_trans := Z_compare_trans
|}.

Lemma ascii_compare_trans (a b c : ascii) :
  Ascii.compare a b = Lt -> Ascii.compare b c = Lt -> Ascii.compare a c = Lt.
Proof.
  unfold Ascii.compare. rewrite !N.compare_lt_iff. apply N.lt_trans.
Qed.

Lemma string_compare_trans (a b c : string) :
  String.compare a b = Lt -> String.compare b c = Lt ->
  String.compare a c = Lt.
Proof.
  revert b c.
  induction a as [|x a IH]; intros [|y b] [|z c]; simpl; try congruence.
  destruct (Ascii.compare x y) eqn:Hxy; try discriminate;
    destruct (Ascii.compare y z) eqn:Hyz; try discriminate; intros Hab Hbc.
  - apply Ascii.compare_eq_iff in Hxy, Hyz. subst.
    unfold Ascii.compare at 1. rewrite N.compare_refl. eauto.
  - apply Ascii.compare_eq_iff in Hxy. subst. rewrite Hyz. reflexivity.
  - apply Ascii.compare_eq_iff in Hyz. subst. rewrite Hxy. reflexivity.
  - rewrite (ascii_compare_trans _ _ _ Hxy Hyz). reflexivity.
Qed.

Lemma string_compare_refl (a : string) : String.compare a a = Eq.
Proof.
  induction a as [|x a IH]; simpl; [reflexivity|].
  unfold Ascii.compare. rewrite N.compare_refl. exact IH.
Qed.

Lemma string_compare_eq (a b : string) : String.compare a b = Eq <-> a = b.
Proof.
  split; [apply String.compare_eq_iff|].
  intros ->. apply string_compare_refl.
Qed.

#[export] Instance GroupKey_string : GroupKey string := {|
  key_cmp := String.compare;
  key_cmp_eq := string_compare_eq;
  key_cmp_antisym := fun a b => String.compare_antisym b a;
  key_cmp_trans := string_compare_trans
|}.

(** ** utils.calculate_conversion_rate *)

(** One line of the summary frame. *)
Record summary_row (K : Type) : Type := mkSummary {
  group : K;
  searches : Z;
  bookings : Z;
  conversion_rate : Q
}.

Arguments mkSummary {K} group searches bookings conversion_rate.
Arguments group {K} s.
Arguments searches {K} s.
Arguments bookings {K} s.
Arguments conversion_rate {K} s.

Section Aggregator.

Context {K : Type} `{GroupKey K}.

(** The aggregation state: per group key, in ascending key order, the
    running [count] and [sum] of [is_booking]. *)
Definition agg_state : Type := list (K * (Z * Z)).

(** Account one row of key [k] and booking flag [b]. *)
Fixpoint upsert (k : K) (b : Z) (acc : agg_state) : agg_state :=
  match acc with
  | [] => [(k, (1, b))]
  | (k', (n, s)) :: rest =>
      match key_cmp k k' with
      | Lt => (k, (1, b)) :: acc
      | Eq => (k', (n + 1, s + b)) :: rest
      | Gt => (k', (n, s)) :: upsert k b rest
      end
  end.

(** [groupby] drops the rows whose key is missing (its default
    [dropna=True]). *)
Definition agg_step (by_col : row -> option K) (acc : agg_state) (r : row)
  : agg_state :=
  match by_col r with
  | Some k => upsert k (is_booking r) acc
  | None => acc
  end.

(** [df.groupby(col).agg(searches=('is_booking','count'),
    bookings=('is_booking','sum')).reset_index()]. *)
Definition groupby_agg (df : list row) (by_col : row -> option K)
  : agg_state :=
  fold_left (agg_step by_col) df [].

(** [(bookings / searches) * 100]. *)
Definition rate (bookings searches : Z) : Q :=
  (inject_Z bookings / inject_Z searches * 100)%Q.

Definition calculate_conversion_rate (df : list row)
  (group_by_col : row -> option K) : list (summary_row K) :=
  map (fun '(k, (n, s)) => mkSummary k n s (rate s n))
      (groupby_agg df group_by_col).

(** *** Top-N views

    [summary[summary['searches'] >= 100]
       .sort_values('conversion_rate', ascending=False).head(n)]. *)

Definition min_searches : Z := 100.

Definition enough_searches (g : summary_row K) : bool :=
  min_searches <=? searches g.

Fixpoint insert_desc (g : summary_row K) (l : list (summary_row K))
  : list (summary_row K) :=
  match l with
  | [] => [g]
  | h :: t =>
      if Qle_bool (conversion_rate h) (conversion_rate g)
      then g :: l
      else h :: insert_desc g t
  end.

(** Rows in descending order of [conversion_rate]; the order among equal
    rates is the one this insertion produces. *)
Definition sort_values_desc (l : list (summary_row K))
  : list (summary_row K) :=
  fold_right insert_desc [] l.

Definition head (n : nat) (l : list (summary_row K)) : list (summary_row K) :=
  firstn n l.

Definition top_n (n : nat) (summary : list (summary_row K))
  : list (summary_row K) :=
  head n (sort_values_desc (filter enough_searches summary)).

End Aggregator.

(** The three top-N views of the dashboard. *)

(** trip_characteristics: [top_markets], the groupby written inline. *)
Definition top_markets (df : list row) : list (summary_row Z) :=
  top_n 10 (calculate_conversion_rate df (fun r => Some (hotel_market r))).

(** advanced_visualizations: [top_countries]. *)
Definition top_countries (df : list row) : list (summary_row Z) :=
  top_n 10
    (calculate_conversion_rate df (fun r => Some (user_location_country r))).

(** advanced_visualizations, customer segmentation. *)
Definition segment_device_package (r : row) : string :=
  np_select
    [ (is_mobile r =? 1) && (is_package r =? 1);
      (is_mobile r =? 1) && (is_package r =? 0);
      (is_mobile r =? 0) && (is_package r =? 1);
      (is_mobile r =? 0) && (is_package r =? 0) ]
    [ "Mobile Package"; "Mobile Non-Package"; "Desktop Package";
      "Desktop Non-Package" ]
    "Other".

Definition travel_party (r : row) : string :=
  np_select
    [ (srch_adults_cnt r =? 1) && (srch_children_cnt r =? 0);
      (srch_adults_cnt r =? 2) && (srch_children_cnt r =? 0);
      (srch_adults_cnt r =? 1) && (0 <? srch_children_cnt r);
      (srch_adults_cnt r =? 2) && (0 <? srch_children_cnt r);
      (2 <? srch_adults_cnt r) ]
    [ "Solo Traveler"; "Couple"; "Single Parent"; "Family"; "Group" ]
    "Other".

Definition trip_type (r : row) : string :=
  np_select
    [ le_c (trip_duration r) 3;
      le_c (trip_duration r) 7;
      gt_c (trip_duration r) 7 ]
    [ "Short Break"; "Standard Vacation"; "Extended Trip" ]
    nan_text.

Definition full_segment (r : row) : option string :=
  Some (segment_device_package r ++ " - " ++ travel_party r ++ " - "
        ++ trip_type r)%string.

(** [df.dropna(subset=[col])]. *)
Definition dropna {A : Type} (col : row -> option A) (df : list row)
  : list row :=
  filter (fun r => match col r with Some _ => true | None => false end) df.

Definition top_segments (df : list row) : list (summary_row string) :=
  top_n 15 (calculate_conversion_rate (dropna full_segment df) full_segment).

(** * The vocabulary of the specification *)

(** ** Feature derivation *)

(** A cell that yields no point in time: empty or no date. *)
Definition no_instant (c : date_cell) : Prop := to_datetime_coerce c = None.

(** The six rules of the travel group, as the specification words them. *)
Inductive travel_rule : Type :=
| RSolo | RCouple | RSingleParent | RFamily | RGroup | ROther.

Definition rule_label (ru : travel_rule) : string :=
  match ru with
  | RSolo => "Solo"
  | RCouple => "Couple"
  | RSingleParent => "Single Parent"
  | RFamily => "Family"
  | RGroup => "Group"
  | ROther => "Other"
  end.

Definition rule_holds (ru : travel_rule) (adults children : Z) : Prop :=
  match ru with
  | RSolo => adults = 1 /\ children = 0
  | RCouple => adults = 2 /\ children = 0
  | RSingleParent => adults = 1 /\ children > 0
  | RFamily => adults = 2 /\ children > 0
  | RGroup => adults > 2
  | ROther =>
      ~ (adults = 1 /\ children = 0) /\ ~ (adults = 2 /\ children = 0) /\
      ~ (adults = 1 /\ children > 0) /\ ~ (adults = 2 /\ children > 0) /\
      ~ adults > 2
  end.

(** ** Aggregation

    The partition of a key value, the rows that carry a key, the rows that
    are bookings, and what the aggregation state holds. *)

Definition booked (r : row) : bool := is_booking r =? 1.

Definition flag (v : Z) : Prop := v = 0 \/ v = 1.

Definition sumZ (l : list Z) : Z := fold_right Z.add 0 l.

Definition count (f : row -> bool) (l : list row) : Z :=
  Z.of_nat (List.length (filter f l)).

Section Vocabulary.

Context {K : Type} `{GroupKey K}.

Definition in_group (by_col : row -> option K) (k : K) (r : row) : bool :=
  match by_col r with
  | Some k' => key_eqb k' k
  | None => false
  end.

Definition partition_of (by_col : row -> option K) (k : K) (df : list row)
  : list row :=
  filter (in_group by_col k) df.

Definition keyed (by_col : row -> option K) (r : row) : bool :=
  match by_col r with Some _ => true | None => false end.

Definition keys (acc : agg_state) : list K := map fst acc.

(** The count and the sum the state holds for a key. *)
Fixpoint count_of (k : K) (acc : agg_state) : Z :=
  match acc with
  | [] => 0
  | (k', (n, _)) :: rest => (if key_eqb k k' then n else 0) + count_of k rest
  end.

Fixpoint sum_of (k : K) (acc : agg_state) : Z :=
  match acc with
  | [] => 0
  | (k', (_, s)) :: rest => (if key_eqb k k' then s else 0) + sum_of k rest
  end.

(** The count and the sum the state holds in all. *)
Definition total_count (acc : agg_state) : Z :=
  sumZ (map (fun e : K * (Z * Z) => fst (snd e)) acc).
Definition total_sum (acc : agg_state) : Z :=
  sumZ (map (fun e : K * (Z * Z) => snd (snd e)) acc).

(** [a] ranks no lower than [b]. *)
Definition rate_ge (a b : summary_row K) : Prop :=
  (conversion_rate b <= conversion_rate a)%Q.

(** The floor of the top-N views, as the specification words it: at least
    100 searches. *)
Definition has_100_searches (g : summary_row K) : bool :=
  100 <=? searches g.

(** What a top-N view of a summary is: of the lines with at least 100
    searches, all of which compete, the first [n] by descending rate. *)
Definition is_top_n (n : nat) (summary top : list (summary_row K)) : Prop :=
  exists rest,
    Permutation (top ++ rest) (filter has_100_searches summary) /\
    StronglySorted rate_ge top /\
    (forall g h, In g top -> In h rest -> rate_ge g h) /\
    List.length top =
      Nat.min n (List.length (filter has_100_searches summary)) /\
    (forall g, In g top -> In g summary /\ 100 <= searches g) /\
    (forall g, In g summary -> 100 <= searches g ->
               In g top \/ In g rest).

End Vocabulary.

(** * Sample data *)

Definition day (n : Z) : Timestamp := n * ns_per_day.
Definition hour (n : Z) : Timedelta := n * 3600 * 1000000000.

Definition sample_raw (dt ci co : date_cell) (mobile package booking : Z)
  (adults children : Z) : raw_row :=
  {| raw_date_time := dt;
     raw_srch_ci := ci;
     raw_srch_co := co;
     raw_is_mobile := mobile;
     raw_is_package := package;
     raw_is_booking := booking;
     raw_srch_adults_cnt := adults;
     raw_srch_children_cnt := children;
     raw_orig_destination_distance := None;
     raw_user_location_country := 66;
     raw_hotel_market := 628 |}.

Definition line1 : raw_row :=
  sample_raw (Stamp (day 16071 + hour 10)) (Stamp (day 16071))
    (Stamp (day 16074)) 1 0 1 2 0.
Definition line2 : raw_row :=
  sample_raw (Stamp (day 16071 + hour 10)) (Stamp (day 16081)) Blank
    0 1 0 1 2.
Definition line3 : raw_row :=
  sample_raw Blank (Garbled "2558-01-01") (Stamp (day 16074)) 1 1 1 5 0.
Definition line4 : raw_row :=
  sample_raw (Stamp (day 16080)) (Stamp (day 16090)) (Stamp (day 16090))
    0 0 0 0 0.

Definition sample_csv : list raw_row := [line1; line2; line3; line4].

Definition row1 : row := enrich line1 (Some (day 16071 + hour 10)).
Definition row2 : row := enrich line2 (Some (day 16071 + hour 10)).
Definition row3 : row := enrich line3 None.
Definition row4 : row := enrich line4 (Some (day 16080)).

Definition sample_df : list row := [row1; row2; row3; row4].

Definition garbled_csv : list raw_row :=
  [ sample_raw (Stamp (day 16071)) (Stamp (day 16072)) (Stamp (day 16074))
      1 0 1 2 0;
    sample_raw (Garbled "31/31/2014") (Stamp (day 16072))
      (Stamp (day 16074)) 1 0 1 2 0 ].

(** A search made at 10:00 for a stay that starts and ends that same day. *)
Definition line_same_day : raw_row :=
  sample_raw (Stamp (day 16071 + hour 10)) (Stamp (day 16071))
    (Stamp (day 16071)) 0 0 1 1 0.
Definition row_same_day : row :=
  enrich line_same_day (Some (day 16071 + hour 10)).

(** The end-to-end scenario of the specification: two Mobile/Package
    searches, one of them booked, and two booked Desktop/Non-Package
    searches. *)
Definition scenario_csv : list raw_row :=
  [ sample_raw (Stamp (day 16071)) (Stamp (day 16080)) (Stamp (day 16083))
      1 1 1 2 0;
    sample_raw (Stamp (day 16072)) (Stamp (day 16090)) (Stamp (day 16097))
      0 0 1 2 1;
    sample_raw (Stamp (day 16073)) Blank Blank 1 1 0 1 0;
    sample_raw (Stamp (day 16074)) (Stamp (day 16100)) (Stamp (day 16101))
      0 0 1 3 0 ].

Definition scenario_df : list row :=
  [ enrich (nth 0 scenario_csv line1) (Some (day 16071));
    enrich (nth 1 scenario_csv line1) (Some (day 16072));
    enrich (nth 2 scenario_csv line1) (Some (day 16073));
    enrich (nth 3 scenario_csv line1) (Some (day 16074)) ].

(** * Further vocabulary of the feature derivation *)

(** What a row of the loaded frame keeps of its line: every base column,
    the instant of each date cell if it has one, and no date-dependent
    number where a cell it is computed from has no instant. *)
Definition kept_from (r : raw_row) (e : row) : Prop :=
  (is_mobile e = raw_is_mobile r /\ is_package e = raw_is_package r /\
   is_booking e = raw_is_booking r /\
   srch_adults_cnt e = raw_srch_adults_cnt r /\
   srch_children_cnt e = raw_srch_children_cnt r /\
   orig_destination_distance e = raw_orig_destination_distance r /\
   user_location_country e = raw_user_location_country r /\
   hotel_market e = raw_hotel_market r) /\
  (date_time e = to_datetime_coerce (raw_date_time r) /\
   srch_ci e = to_datetime_coerce (raw_srch_ci r) /\
   srch_co e = to_datetime_coerce (raw_srch_co r)) /\
  (no_instant (raw_date_time r) ->
   year_month e = None /\ booking_window e = None) /\
  (no_instant (raw_srch_ci r) ->
   trip_duration e = None /\ booking_window e = None) /\
  (no_instant (raw_srch_co r) -> trip_duration e = None).

(** * Further sample data *)

(** A search with a known origin-destination distance of exactly 100. *)
Definition line_distance : raw_row :=
  {| raw_date_time := Stamp (day 16071 + hour 10);
     raw_srch_ci := Stamp (day 16075);
     raw_srch_co := Stamp (day 16080);
     raw_is_mobile := 0;
     raw_is_package := 0;
     raw_is_booking := 0;
     raw_srch_adults_cnt := 2;
     raw_srch_children_cnt := 0;
     raw_orig_destination_distance := Some 100%Q;
     raw_user_location_country := 66;
     raw_hotel_market := 628 |}.
Definition row_distance : row :=
  enrich line_distance (Some (day 16071 + hour 10)).

(** * Further vocabulary of the aggregation *)

Section KeyPredicates.

Context {K : Type} `{GroupKey K}.

(** The rows whose key is present and satisfies [p]; the entries of a state
    and the lines of a summary whose key satisfies [p]. *)
Definition key_in (by_col : row -> option K) (p : K -> bool) (r : row)
  : bool :=
  match by_col r with Some k => p k | None => false end.

Definition keep (p : K -> bool) (acc : agg_state) : agg_state :=
  filter (fun e : K * (Z * Z) => p (fst e)) acc.

Definition lines_in (p : K -> bool) (summary : list (summary_row K))
  : list (summary_row K) :=
  filter (fun g => p (group g)) summary.

End KeyPredicates.

(** * Further views

    [Series.isin(values)] on a text column. *)
Definition isin (values : list string) (k : string) : bool :=
  existsb (String.eqb k) values.

(** trip_characteristics and recommendations: [duration_data], the
    groupby written inline. *)
Definition duration_data (df : list row) : list (summary_row string) :=
  calculate_conversion_rate (dropna duration_category df) duration_category.

(** recommendations: [long_trip_data] and [avg_long_trip_rate]; when no
    line is selected the tab shows a fixed text instead of a rate. *)
Definition long_trip_data (df : list row) : list (summary_row string) :=
  lines_in (isin ["8-14 days"; "15+ days"]) (duration_data df).

Definition avg_long_trip_rate (df : list row) : option Q :=
  match long_trip_data df with
  | [] => None
  | lines => Some (rate (sumZ (map bookings lines))
                        (sumZ (map searches lines)))
  end.

(** Three searches: stays of 10 days (booked), 20 days and 3 days. *)
Definition trips_csv : list raw_row :=
  [ sample_raw (Stamp (day 16071)) (Stamp (day 16080)) (Stamp (day 16090))
      0 0 1 2 0;
    sample_raw (Stamp (day 16072)) (Stamp (day 16080)) (Stamp (day 16100))
      1 0 0 2 2;
    sample_raw (Stamp (day 16073)) (Stamp (day 16080)) (Stamp (day 16083))
      0 1 0 1 0 ].

Definition trips_df : list row :=
  [ enrich (nth 0 trips_csv line1) (Some (day 16071));
    enrich (nth 1 trips_csv line1) (Some (day 16072));
    enrich (nth 2 trips_csv line1) (Some (day 16073)) ].

(** ** predictive_model: the prediction simulator

    The labels the simulator computes for its slider values, by the
    if/elif chains of the source. *)
Definition sim_travel_group (adults children : Z) : string :=
  if (adults =? 1) && (children =? 0) then "Solo"
  else if (adults =? 2) && (children =? 0) then "Couple"
  else if (adults =? 1) && (0 <? children) then "Single Parent"
  else if (adults =? 2) && (0 <? children) then "Family"
  else if 2 <? adults then "Group"
  else "Other".

Definition sim_duration (trip_days : Z) : string :=
  if trip_days <=? 3 then "1-3 days"
  else if trip_days <=? 7 then "4-7 days"
  else if trip_days <=? 14 then "8-14 days"
  else "15+ days".

Definition sim_window (booking_window_days : Z) : string :=
  if booking_window_days <? 7 then "0-6 days"
  else if booking_window_days <? 14 then "7-13 days"
  else if booking_window_days <? 30 then "14-29 days"
  else if booking_window_days <? 60 then "30-59 days"
  else if booking_window_days <? 90 then "60-89 days"
  else "90+ days".

Definition sim_device_package (mobile package : Z) : string :=
  ((if (mobile =? 1)%Z then "Mobile" else "Desktop") ++ ", " ++
   (if (package =? 1)%Z then "Package" else "Non-Package"))%string.

(** ** Headline numbers of the tabs

    The tabs compute their headline numbers with plain Python arithmetic on
    row counts; a division by zero raises. *)

Inductive view_error : Type :=
| ZeroDivisionError
| ValueError.

Inductive outcome (A : Type) : Type :=
| Done (a : A)
| Fails (e : view_error).

Arguments Done {A} a.
Arguments Fails {A} e.

Definition and_then {A B : Type} (m : outcome A) (f : A -> outcome B)
  : outcome B :=
  match m with
  | Done a => f a
  | Fails e => Fails e
  end.

Notation "x <~ m ;; k" := (and_then m (fun x => k))
  (at level 61, m at next level, right associativity).

(** Python's [a / b] on numbers. *)
Definition py_div (a b : Q) : outcome Q :=
  if Qeq_bool b 0 then Fails ZeroDivisionError else Done (a / b)%Q.

(** [(bookings / searches) * 100] on two row counts. *)
Definition percent_of (part whole : Z) : outcome Q :=
  q <~ py_div (inject_Z part) (inject_Z whole) ;;
  Done (q * 100)%Q.

(** [((other - base) / base) * 100] on two rates. *)
Definition gap (other base : Q) : outcome Q :=
  q <~ py_div (other - base)%Q base ;;
  Done (q * 100)%Q.

(** [df.shape[0]] and [df[mask].shape[0]]. *)
Definition shape0 (df : list row) : Z := Z.of_nat (List.length df).

Definition is_1 (col : row -> Z) (r : row) : bool := col r =? 1.
Definition is_0 (col : row -> Z) (r : row) : bool := col r =? 0.

(** key_metrics: the four headline numbers. *)
Record key_metrics : Type := mkKeyMetrics {
  km_total_searches : Z;
  km_total_bookings : Z;
  km_booking_rate : Q;
  km_mobile_searches : Q
}.

Definition show_key_metrics (df : list row) : outcome key_metrics :=
  let total_searches := shape0 df in
  let total_bookings := count (is_1 is_booking) df in
  booking_rate <~ percent_of total_bookings total_searches ;;
  mobile <~ py_div (inject_Z (count (is_1 is_mobile) df))
                   (inject_Z total_searches) ;;
  Done (mkKeyMetrics total_searches total_bookings booking_rate mobile).

(** recommendations: the rates and gaps computed before anything is
    shown. *)
Record recommendation_metrics : Type := mkRecMetrics {
  rm_booking_rate : Q;
  rm_mobile_rate : Q;
  rm_desktop_rate : Q;
  rm_mobile_gap : Q;
  rm_package_rate : Q;
  rm_nonpackage_rate : Q;
  rm_package_gap : Q
}.

Definition both (f g : row -> bool) (r : row) : bool := f r && g r.

Definition show_recommendations (df : list row)
  : outcome recommendation_metrics :=
  let total_searches := shape0 df in
  let total_bookings := count (is_1 is_booking) df in
  booking_rate <~ percent_of total_bookings total_searches ;;
  let mobile_searches := count (is_1 is_mobile) df in
  let mobile_bookings :=
    count (both (is_1 is_mobile) (is_1 is_booking)) df in
  mobile_rate <~ percent_of mobile_bookings mobile_searches ;;
  let desktop_searches := count (is_0 is_mobile) df in
  let desktop_bookings :=
    count (both (is_0 is_mobile) (is_1 is_booking)) df in
  desktop_rate <~ percent_of desktop_bookings desktop_searches ;;
  mobile_gap <~ gap desktop_rate mobile_rate ;;
  let package_searches := count (is_1 is_package) df in
  let package_bookings :=
    count (both (is_1 is_package) (is_1 is_booking)) df in
  package_rate <~ percent_of package_bookings package_searches ;;
  let nonpackage_searches := count (is_0 is_package) df in
  let nonpackage_bookings :=
    count (both (is_0 is_package) (is_1 is_booking)) df in
  nonpackage_rate <~ percent_of nonpackage_bookings nonpackage_searches ;;
  package_gap <~ gap nonpackage_rate package_rate ;;
  Done (mkRecMetrics booking_rate mobile_rate desktop_rate mobile_gap
          package_rate nonpackage_rate package_gap).

(** ** user_device: best and worst combination

    [Series.idxmax()] and [Series.idxmin()] followed by [.loc]: the first
    line with the greatest, respectively the least, value; both raise
    ValueError on an empty column. *)

Definition Qltb (a b : Q) : bool := negb (Qle_bool b a).

Section IdxMax.

Context {K : Type}.

Fixpoint first_best (better : Q -> Q -> bool) (best : summary_row K)
  (l : list (summary_row K)) : summary_row K :=
  match l with
  | [] => best
  | h :: t =>
      first_best better
        (if better (conversion_rate h) (conversion_rate best)
         then h else best) t
  end.

Definition idxmax (l : list (summary_row K)) : outcome (summary_row K) :=
  match l with
  | [] => Fails ValueError
  | h :: t => Done (first_best (fun a b => Qltb b a) h t)
  end.

Definition idxmin (l : list (summary_row K)) : outcome (summary_row K) :=
  match l with
  | [] => Fails ValueError
  | h :: t => Done (first_best (fun a b => Qltb a b) h t)
  end.

(** [b] is the first line of [l] that no line of [l] beats. *)
Definition first_unbeaten (beats : summary_row K -> summary_row K -> Prop)
  (l : list (summary_row K)) (b : summary_row K) : Prop :=
  exists before after,
    l = before ++ b :: after /\
    (forall g, In g before -> beats b g) /\
    (forall g, In g after -> ~ beats g b).

End IdxMax.

(** [combined_data], [best_combo] and [worst_combo]. *)
Definition combined_data (df : list row) : list (summary_row string) :=
  calculate_conversion_rate df device_package.

Definition best_combo (df : list row) : outcome (summary_row string) :=
  idxmax (combined_data df).

Definition worst_combo (df : list row) : outcome (summary_row string) :=
  idxmin (combined_data df).

Definition higher_rate {K : Type} (a b : summary_row K) : Prop :=
  (conversion_rate b < conversion_rate a)%Q.

Definition lower_rate {K : Type} (a b : summary_row K) : Prop :=
  (conversion_rate a < conversion_rate b)%Q.

(** ** predictive_model: the modelling subset

    [DataFrame.dropna(subset=[a, b])] drops a row when either column is
    missing.  [DataFrame.sample(n=...)] draws without replacement and
    raises ValueError when asked for more rows than the frame has; which
    rows it draws is the choice of the seeded generator, here [draw]. *)

Definition complete (r : row) : bool :=
  match trip_duration r, booking_window r with
  | Some _, Some _ => true
  | _, _ => false
  end.

Section Sample.

Variable draw : Z -> list row -> list row.

Definition sample (n : Z) (population : list row) : outcome (list row) :=
  if n <=? shape0 population then Done (draw n population)
  else Fails ValueError.

Definition model_df (df : list row) : outcome (list row) :=
  sample (Z.min 50000 (shape0 df)) (filter complete df).

End Sample.

(** ** advanced_visualizations: temporal patterns *)

Definition ns_per_hour : Z := 3600 * 1000000000.

(** [Series.dt.hour], [Series.dt.day_name()], [Series.dt.month_name()]. *)
Definition dt_hour (t : Timestamp) : Z := (t mod ns_per_day) / ns_per_hour.

Definition day_order : list string :=
  [ "Monday"; "Tuesday"; "Wednesday"; "Thursday"; "Friday"; "Saturday";
    "Sunday" ].

Definition month_order : list string :=
  [ "January"; "February"; "March"; "April"; "May"; "June"; "July";
    "August"; "September"; "October"; "November"; "December" ].

Definition dt_day_name (t : Timestamp) : string :=
  nth (Z.to_nat ((td_days t + 3) mod 7)) day_order "".

Definition dt_month_name (t : Timestamp) : string :=
  let '(_, m, _) := civil_from_days (td_days t) in
  nth (Z.to_nat (m - 1)) month_order "".

Definition search_hour (r : row) : option Z :=
  option_map dt_hour (date_time r).
Definition search_day (r : row) : option string :=
  option_map dt_day_name (date_time r).
Definition search_month (r : row) : option string :=
  option_map dt_month_name (date_time r).

(** [Series.map({name: i for i, name in enumerate(order)})]: the position
    of a name in the list, missing for a name that is not listed. *)
Fixpoint position (x : string) (order : list string) : option Z :=
  match order with
  | [] => None
  | y :: rest =>
      if String.eqb x y then Some 0 else option_map Z.succ (position x rest)
  end.

(** [sort_values(col)] on a numeric column, ascending, missing values
    last. *)
Definition opt_leb (a b : option Z) : bool :=
  match a, b with
  | Some x, Some y => x <=? y
  | None, Some _ => false
  | _, None => true
  end.

Section SortBy.

Context {A : Type} (key : A -> option Z).

Fixpoint insert_by (g : A) (l : list A) : list A :=
  match l with
  | [] => [g]
  | h :: t => if opt_leb (key g) (key h) then g :: l else h :: insert_by g t
  end.

Definition sort_values_by (l : list A) : list A :=
  fold_right insert_by [] l.

Definition key_le (a b : A) : Prop := opt_leb (key a) (key b) = true.

End SortBy.

Definition hour_data (df : list row) : list (summary_row Z) :=
  calculate_conversion_rate df search_hour.

(** The instant [t] lies in the hour [h] of its day: at least [h] and less
    than [h + 1] hours after the midnight before it. *)
Definition in_hour (h : Z) (t : Timestamp) : bool :=
  let since_midnight := t - (t / ns_per_day) * ns_per_day in
  (h * ns_per_hour <=? since_midnight) &&
  (since_midnight <? (h + 1) * ns_per_hour).

(** The rows whose search instant lies in the hour [h]. *)
Definition searched_in_hour (h : Z) (r : row) : bool :=
  match date_time r with
  | Some t => in_hour h t
  | None => false
  end.

Definition day_data (df : list row) : list (summary_row string) :=
  sort_values_by (fun g => position (group g) day_order)
    (calculate_conversion_rate df search_day).

Definition month_data (df : list row) : list (summary_row string) :=
  sort_values_by (fun g => position (group g) month_order)
    (calculate_conversion_rate df search_month).

(** [a] is listed before [b] in [order]. *)
Definition listed_before (order : list string) (a b : string) : Prop :=
  exists i j, position a order = Some i /\ position b order = Some j /\ i < j.

(** ** utils.get_monthly_data *)

(** [str.split(sep)] for a one-character separator. *)
Fixpoint split_on (sep : ascii) (s : string) : list string :=
  match s with
  | EmptyString => [EmptyString]
  | String c rest =>
      if Ascii.eqb c sep then EmptyString :: split_on sep rest
      else match split_on sep rest with
           | [] => [String c EmptyString]
           | w :: ws => String c w :: ws
           end
  end.

(** [Series.str.split('-').str[i]]: the i-th piece, missing when there are
    fewer pieces. *)
Definition str_split_get (i : nat) (s : string) : option string :=
  nth_error (split_on "-"%char s) i.

(** One line of the monthly frame. *)
Record monthly_row : Type := mkMonthly {
  m_year_month : string;
  m_searches : Z;
  m_bookings : Z;
  m_mobile_searches : Z;
  m_conversion_rate : Q;
  m_mobile_percentage : Q;
  m_year : option string;
  m_month : option string
}.

Section Monthly.

Context {K : Type} `{GroupKey K}.

(** The state of the groupby with three aggregates: the count and the sum
    of [is_booking] and the sum of [is_mobile]. *)
Definition agg3_state : Type := list (K * (Z * Z * Z)).

Fixpoint upsert3 (k : K) (b m : Z) (acc : agg3_state) : agg3_state :=
  match acc with
  | [] => [(k, (1, b, m))]
  | (k', (n, s, ms)) :: rest =>
      match key_cmp k k' with
      | Lt => (k, (1, b, m)) :: acc
      | Eq => (k', (n + 1, s + b, ms + m)) :: rest
      | Gt => (k', (n, s, ms)) :: upsert3 k b m rest
      end
  end.

Definition agg3_step (by_col : row -> option K) (acc : agg3_state) (r : row)
  : agg3_state :=
  match by_col r with
  | Some k => upsert3 k (is_booking r) (is_mobile r) acc
  | None => acc
  end.

Definition groupby_agg3 (df : list row) (by_col : row -> option K)
  : agg3_state :=
  fold_left (agg3_step by_col) df [].

(** Each entry counts at least one row and at most as many mobile rows as
    rows. *)
Definition entry_ok (e : K * (Z * Z * Z)) : Prop :=
  let '(_, (n, _, ms)) := e in 1 <= n /\ 0 <= ms <= n.

(** The state without its third aggregate. *)
Definition drop_third (acc : agg3_state) : agg_state :=
  map (fun e : K * (Z * Z * Z) =>
         let '(k, (n, s, _)) := e in (k, (n, s))) acc.

End Monthly.

Definition get_monthly_data (df : list row) : list monthly_row :=
  map (fun e : string * (Z * Z * Z) =>
         let '(k, (n, s, ms)) := e in
         mkMonthly k n s ms (rate s n) (rate ms n)
           (str_split_get 0 k) (str_split_get 1 k))
      (groupby_agg3 df year_month).

(** The columns [get_monthly_data] shares with the conversion summary. *)
Definition monthly_summary (m : monthly_row) : summary_row string :=
  mkSummary (m_year_month m) (m_searches m) (m_bookings m)
    (m_conversion_rate m).

(** The month labels the year-over-year chart of key_metrics lists. *)
Definition categoryarray : list string :=
  [ "01"; "02"; "03"; "04"; "05"; "06"; "07"; "08"; "09"; "10"; "11"; "12" ].

(** * Properties of the feature derivation *)

Section MapM.

Context {A B : Type} (f : A -> result B).

Lemma mapM_Ok_Forall2 (l : list A) (l' : list B) :
  mapM f l = Ok l' -> Forall2 (fun a b => f a = Ok b) l l'.
Proof.
  revert l'. induction l as [|a l IH]; simpl; intros l' Hm.
  - inversion Hm. constructor.
  - destruct (f a) as [b|e] eqn:Ha; simpl in Hm; [|discriminate].
    destruct (mapM f l) as [bs|e]; simpl in Hm; [|discriminate].
    inversion Hm; subst. constructor; auto.
Qed.

Lemma mapM_Raise (l : list A) (a : A) (e : error) :
  In a l -> f a = Raise e -> exists e', mapM f l = Raise e'.
Proof.
  induction l as [|x l IH]; simpl; intros Hin Ha; [contradiction|].
  destruct Hin as [->|Hin].
  - rewrite Ha. simpl. eexists. reflexivity.
  - destruct (f x); simpl; [|eexists; reflexivity].
    destruct (IH Hin Ha) as [e' ->]. simpl. eexists. reflexivity.
Qed.

End MapM.

Lemma Forall2_In_r {A B : Type} (R : A -> B -> Prop) (l : list A)
  (l' : list B) (b : B) :
  Forall2 R l l' -> In b l' -> exists a, In a l /\ R a b.
Proof.
  induction 1 as [|x y l l' Hxy _ IH]; simpl; [contradiction|].
  intros [->|Hin]; [eauto|].
  destruct (IH Hin) as (a & Ha & HR). eauto.
Qed.

(** Every row of the loaded frame is the derivation of a line of the file. *)
Lemma load_data_In (csv : list raw_row) (df : list row) (e : row) :
  load_data csv = Ok df -> In e df -> exists r, In r csv /\ derive r = Ok e.
Proof.
  intros Hload Hin. apply mapM_Ok_Forall2 in Hload.
  exact (Forall2_In_r _ _ _ _ Hload Hin).
Qed.

(** The derived columns of a row, as functions of its base columns. *)
Lemma derive_columns (r : raw_row) (e : row) :
  derive r = Ok e ->
  to_datetime (raw_date_time r) = Ok (date_time e) /\
  srch_ci e = to_datetime_coerce (raw_srch_ci r) /\
  srch_co e = to_datetime_coerce (raw_srch_co r) /\
  is_mobile e = raw_is_mobile r /\
  is_package e = raw_is_package r /\
  is_booking e = raw_is_booking r /\
  srch_adults_cnt e = raw_srch_adults_cnt r /\
  srch_children_cnt e = raw_srch_children_cnt r /\
  year_month e = option_map strftime_Ym (date_time e) /\
  trip_duration e = days_between (srch_co e) (srch_ci e) /\
  booking_window e = days_between (srch_ci e) (date_time e) /\
  travel_group e = travel_group_of (srch_adults_cnt e) (srch_children_cnt e) /\
  duration_category e = Some (duration_category_of (trip_duration e)) /\
  window_category e = Some (window_category_of (booking_window e)) /\
  device_package e = device_package_of (is_mobile e) (is_package e).
Proof.
  unfold derive. destruct (to_datetime (raw_date_time r)) as [dt|err];
    simpl; intros Hd; [|discriminate].
  inversion Hd; subst; simpl. repeat split; reflexivity.
Qed.

(** The two ladders on a defined value. *)
Lemma duration_category_of_Some (d : Z) :
  duration_category_of (Some d) =
  if d <=? 3 then "1-3 days"
  else if d <=? 7 then "4-7 days"
  else if d <=? 14 then "8-14 days"
  else "15+ days".
Proof.
  unfold duration_category_of; simpl.
  destruct (d <=? 3) eqn:H3; [reflexivity|].
  destruct (d <=? 7) eqn:H7; [reflexivity|].
  destruct (d <=? 14) eqn:H14; [reflexivity|].
  replace (14 <? d) with true by (symmetry; apply Z.ltb_lt; lia).
  reflexivity.
Qed.

Lemma window_category_of_Some (w : Z) :
  window_category_of (Some w) =
  if w <? 7 then "0-6 days"
  else if w <? 14 then "7-13 days"
  else if w <? 30 then "14-29 days"
  else if w <? 60 then "30-59 days"
  else if w <? 90 then "60-89 days"
  else "90+ days".
Proof.
  unfold window_category_of; simpl.
  destruct (w <? 7) eqn:H7; [reflexivity|].
  destruct (w <? 14) eqn:H14; [reflexivity|].
  destruct (w <? 30) eqn:H30; [reflexivity|].
  destruct (w <? 60) eqn:H60; [reflexivity|].
  destruct (w <? 90) eqn:H90; [reflexivity|].
  replace (90 <=? w) with true by (symmetry; apply Z.leb_le; lia).
  reflexivity.
Qed.

Lemma load_sample_csv : load_data sample_csv = Ok sample_df.
Proof. reflexivity. Qed.

(** Any line whose [date_time] is no date aborts the load. *)
Lemma load_data_raises_on_garbled (csv : list raw_row) (r : raw_row)
  (text : string) :
  In r csv -> raw_date_time r = Garbled text ->
  exists e, load_data csv = Raise e.
Proof.
  intros Hin Hbad. apply (mapM_Raise derive csv r (DateParseError text) Hin).
  unfold derive. rewrite Hbad. reflexivity.
Qed.

(** C1.  One line whose [date_time] is no date makes the whole load raise,
    whatever the other lines hold: the conversion of [date_time] is strict.
    The conversions of [srch_ci] and [srch_co] are not: a line with an
    empty [srch_co], and a line with an empty [date_time] and a [srch_ci]
    that is no date, are loaded, with the columns computed from those cells
    ([year_month], [trip_duration], [booking_window]) missing. *)
Theorem load_data_garbled_date_time_raises :
  load_data garbled_csv = Raise (DateParseError "31/31/2014") /\
  ~ (exists df, load_data garbled_csv = Ok df) /\
  load_data [line2; line3] = Ok [row2; row3] /\
  trip_duration row2 = None /\
  year_month row3 = None /\ trip_duration row3 = None /\
  booking_window row3 = None.
Proof.
  split; [reflexivity|]. split; [intros [df Hdf]; discriminate Hdf|].
  split; [reflexivity|]. split; [reflexivity|]. split; [reflexivity|].
  split; reflexivity.
Qed.

Lemma travel_group_of_rule (a c : Z) :
  exists ru, rule_holds ru a c /\ travel_group_of a c = rule_label ru.
Proof.
  unfold travel_group_of; simpl.
  destruct (a =? 1) eqn:H1; destruct (a =? 2) eqn:H2;
    destruct (c =? 0) eqn:H0; destruct (0 <? c) eqn:Hc;
    destruct (2 <? a) eqn:Hg; simpl;
    rewrite ?Z.eqb_eq, ?Z.eqb_neq, ?Z.ltb_lt, ?Z.ltb_ge in *;
    try lia;
    try (exists RSolo; simpl; split; [lia|reflexivity]);
    try (exists RCouple; simpl; split; [lia|reflexivity]);
    try (exists RSingleParent; simpl; split; [lia|reflexivity]);
    try (exists RFamily; simpl; split; [lia|reflexivity]);
    try (exists RGroup; simpl; split; [lia|reflexivity]);
    (exists ROther; simpl; split; [lia|reflexivity]).
Qed.

Lemma rule_holds_unique (a c : Z) (ru ru' : travel_rule) :
  rule_holds ru a c -> rule_holds ru' a c -> ru = ru'.
Proof.
  destruct ru, ru'; simpl; intros; try reflexivity; lia.
Qed.

(** The representative records of the specification, one per rule. *)
Example travel_group_representatives :
  map (fun '(a, c) => travel_group_of a c)
      [(1, 0); (2, 0); (1, 2); (2, 1); (5, 0); (0, 0)] =
  ["Solo"; "Couple"; "Single Parent"; "Family"; "Group"; "Other"].
Proof. reflexivity. Qed.

(** C3.  In every row of the loaded frame exactly one of the six rules holds
    of its adult and child counts, and [travel_group] is the label of that
    rule: Solo, Couple, Single Parent, Family, Group, or Other when none of
    the first five holds.  No sign condition on the counts is needed. *)
Theorem travel_group_exactly_one_rule (csv : list raw_row) (df : list row)
  (e : row) :
  load_data csv = Ok df -> In e df ->
  exists ru,
    rule_holds ru (srch_adults_cnt e) (srch_children_cnt e) /\
    travel_group e = rule_label ru /\
    (forall ru', rule_holds ru' (srch_adults_cnt e) (srch_children_cnt e) ->
                 ru' = ru) /\
    (forall ru', travel_group e = rule_label ru' -> ru' = ru).
Proof.
  intros Hload Hin.
  destruct (load_data_In _ _ _ Hload Hin) as (r & _ & Hd).
  apply derive_columns in Hd.
  destruct Hd as (_ & _ & _ & _ & _ & _ & _ & _ & _ & _ & _ & Htg & _).
  destruct (travel_group_of_rule (srch_adults_cnt e) (srch_children_cnt e))
    as (ru & Hru & Hlab).
  exists ru. rewrite Htg, Hlab.
  repeat split; [exact Hru| |].
  - intros ru' Hru'. exact (rule_holds_unique _ _ _ _ Hru' Hru).
  - intros ru'. destruct ru, ru'; simpl; intros Heq;
      (reflexivity || discriminate Heq).
Qed.

Lemma travel_group_exactly_one_rule_witness :
  load_data sample_csv = Ok sample_df /\ In row3 sample_df /\
  exists ru,
    rule_holds ru (srch_adults_cnt row3) (srch_children_cnt row3) /\
    travel_group row3 = rule_label ru /\
    (forall ru', rule_holds ru' (srch_adults_cnt row3) (srch_children_cnt row3)
                 -> ru' = ru) /\
    (forall ru', travel_group row3 = rule_label ru' -> ru' = ru).
Proof.
  assert (Hload : load_data sample_csv = Ok sample_df) by reflexivity.
  assert (Hin : In row3 sample_df) by (simpl; auto).
  split; [exact Hload|]. split; [exact Hin|].
  exact (travel_group_exactly_one_rule sample_csv sample_df row3 Hload Hin).
Defined.

(** The category columns of a loaded row are never missing: on a missing
    number every condition of the ladder is False and [np.select] stores
    its default, the text [nan_text]. *)
Lemma category_of_missing :
  duration_category_of None = nan_text /\ window_category_of None = nan_text.
Proof. split; reflexivity. Qed.

Lemma loaded_categories (csv : list raw_row) (df : list row) (e : row) :
  load_data csv = Ok df -> In e df ->
  duration_category e = Some (duration_category_of (trip_duration e)) /\
  window_category e = Some (window_category_of (booking_window e)).
Proof.
  intros Hload Hin.
  destruct (load_data_In _ _ _ Hload Hin) as (r & _ & Hd).
  apply derive_columns in Hd. tauto.
Qed.

Lemma loaded_category_without_number (csv : list raw_row) (df : list row)
  (e : row) :
  load_data csv = Ok df -> In e df ->
  (trip_duration e = None -> duration_category e = Some nan_text) /\
  (booking_window e = None -> window_category e = Some nan_text).
Proof.
  intros Hload Hin.
  destruct (loaded_categories _ _ _ Hload Hin) as [-> ->].
  split; intros ->; reflexivity.
Qed.

(** C4.  The ladders hold on defined values, but the categories are not
    missing when their number is: for a line with an empty [srch_co] the
    loaded row has no [trip_duration] and the [duration_category] "nan";
    for a line with an unreadable [srch_ci] the row has no [booking_window]
    and the [window_category] "nan". *)
Theorem category_defined_without_number :
  load_data [line2; line3] = Ok [row2; row3] /\
  trip_duration row2 = None /\ duration_category row2 = Some "nan" /\
  booking_window row3 = None /\ window_category row3 = Some "nan" /\
  duration_category_of (Some 3) = "1-3 days" /\
  duration_category_of (Some 4) = "4-7 days".
Proof. repeat split; reflexivity. Qed.

(** C7.  In every row of the loaded frame whose [is_mobile] and [is_package]
    are 0 or 1, [device_package] is present and is the composition of the two
    flags, hence one of four texts; no other column takes part. *)
Theorem device_package_four_combinations (csv : list raw_row)
  (df : list row) (e : row) :
  load_data csv = Ok df -> In e df ->
  (is_mobile e = 0 \/ is_mobile e = 1) ->
  (is_package e = 0 \/ is_package e = 1) ->
  device_package e =
    Some ((if (is_mobile e =? 1)%Z then "Mobile" else "Desktop") ++ ", " ++
          (if (is_package e =? 1)%Z then "Package" else "Non-Package"))%string
  /\
  In (device_package e)
     [ Some "Mobile, Package"; Some "Mobile, Non-Package";
       Some "Desktop, Package"; Some "Desktop, Non-Package" ].
Proof.
  intros Hload Hin Hm Hp.
  destruct (load_data_In _ _ _ Hload Hin) as (r & _ & Hd).
  apply derive_columns in Hd.
  destruct Hd as (_ & _ & _ & _ & _ & _ & _ & _ & _ & _ & _ & _ & _ & _ & Hdp).
  rewrite Hdp. unfold device_package_of, map_flag.
  destruct Hm as [-> | ->], Hp as [-> | ->]; simpl; split;
    try reflexivity; auto.
Qed.

Lemma device_package_four_combinations_witness :
  load_data sample_csv = Ok sample_df /\ In row3 sample_df /\
  (is_mobile row3 = 0 \/ is_mobile row3 = 1) /\
  (is_package row3 = 0 \/ is_package row3 = 1) /\
  device_package row3 = Some "Mobile, Package" /\
  date_time row3 = None /\ srch_ci row3 = None /\
  orig_destination_distance row3 = None.
Proof.
  assert (Hload : load_data sample_csv = Ok sample_df) by reflexivity.
  assert (Hin : In row3 sample_df) by (simpl; auto).
  assert (Hm : is_mobile row3 = 0 \/ is_mobile row3 = 1)
    by (right; reflexivity).
  assert (Hp : is_package row3 = 0 \/ is_package row3 = 1)
    by (right; reflexivity).
  split; [exact Hload|]. split; [exact Hin|].
  split; [exact Hm|]. split; [exact Hp|].
  split;
    [exact (proj1 (device_package_four_combinations
                     sample_csv sample_df row3 Hload Hin Hm Hp))|].
  repeat split; reflexivity.
Defined.

(** C10.  In every row of the loaded frame, a defined [booking_window]
    below zero gives the [window_category] "0-6 days", and a defined
    [trip_duration] of zero or less gives the [duration_category]
    "1-3 days". *)
Theorem ladders_clamp_below (csv : list raw_row) (df : list row) (e : row)
  (w d : Z) :
  load_data csv = Ok df -> In e df ->
  (booking_window e = Some w -> w < 0 ->
   window_category e = Some "0-6 days") /\
  (trip_duration e = Some d -> d <= 0 ->
   duration_category e = Some "1-3 days").
Proof.
  intros Hload Hin.
  destruct (loaded_categories _ _ _ Hload Hin) as [Hdc Hwc].
  rewrite Hdc, Hwc. split.
  - intros -> Hw. rewrite window_category_of_Some.
    replace (w <? 7) with true by (symmetry; apply Z.ltb_lt; lia).
    reflexivity.
  - intros -> Hd. rewrite duration_category_of_Some.
    replace (d <=? 3) with true by (symmetry; apply Z.leb_le; lia).
    reflexivity.
Qed.

Lemma ladders_clamp_below_witness :
  load_data [line_same_day] = Ok [row_same_day] /\
  In row_same_day [row_same_day] /\
  booking_window row_same_day = Some (-1) /\ -1 < 0 /\
  window_category row_same_day = Some "0-6 days" /\
  trip_duration row_same_day = Some 0 /\ 0 <= 0 /\
  duration_category row_same_day = Some "1-3 days".
Proof.
  assert (Hload : load_data [line_same_day] = Ok [row_same_day])
    by reflexivity.
  assert (Hin : In row_same_day [row_same_day]) by (simpl; auto).
  assert (Hw : booking_window row_same_day = Some (-1)) by reflexivity.
  assert (Hd : trip_duration row_same_day = Some 0) by reflexivity.
  assert (Hneg : -1 < 0) by lia.
  assert (Hzero : 0 <= 0) by lia.
  pose proof (ladders_clamp_below [line_same_day] [row_same_day]
                row_same_day (-1) 0 Hload Hin) as [Hwin Hdur].
  repeat split; auto.
Defined.

(** * Properties of the aggregation *)

Section KeyOrder.

Context {K : Type} `{GroupKey K}.

Lemma key_cmp_refl (a : K) : key_cmp a a = Eq.
Proof. apply key_cmp_eq. reflexivity. Qed.

Lemma key_cmp_Gt (a b : K) : key_cmp a b = Gt -> key_cmp b a = Lt.
Proof. intros Hab. rewrite key_cmp_antisym, Hab. reflexivity. Qed.

Lemma key_lt_irrefl (a : K) : ~ key_lt a a.
Proof. unfold key_lt. rewrite key_cmp_refl. discriminate. Qed.

Lemma key_lt_asym (a b : K) : key_lt a b -> ~ key_lt b a.
Proof.
  intros Hab Hba. exact (key_lt_irrefl a (key_cmp_trans _ _ _ Hab Hba)).
Qed.

Lemma key_eqb_eq (a b : K) : key_eqb a b = true <-> a = b.
Proof.
  unfold key_eqb. rewrite <- key_cmp_eq.
  destruct (key_cmp a b); split; congruence.
Qed.

Lemma key_eqb_refl (a : K) : key_eqb a a = true.
Proof. apply key_eqb_eq. reflexivity. Qed.

Lemma key_eqb_neq (a b : K) : key_eqb a b = false <-> a <> b.
Proof.
  rewrite <- key_eqb_eq. destruct (key_eqb a b); split; congruence.
Qed.

Lemma key_lt_neq (a b : K) : key_lt a b -> key_eqb a b = false.
Proof.
  intros Hab. apply key_eqb_neq. intros ->. exact (key_lt_irrefl _ Hab).
Qed.

End KeyOrder.

(** Turn every comparison fact into an equation or a [Lt] fact. *)
Ltac key_norm :=
  repeat match goal with
  | Hc : key_cmp ?a ?b = Eq |- _ => apply key_cmp_eq in Hc; subst
  | Hc : key_cmp ?a ?b = Gt |- _ => apply key_cmp_Gt in Hc
  end.

(** Close a goal whose comparison facts contain a cycle. *)
Ltac key_contra :=
  key_norm;
  match goal with
  | H1 : key_cmp ?a ?a = Lt |- _ =>
      exfalso; exact (key_lt_irrefl a H1)
  | H1 : key_cmp ?a ?b = Lt, H2 : key_cmp ?b ?a = Lt |- _ =>
      exfalso; exact (key_lt_asym a b H1 H2)
  | H1 : key_cmp ?a ?b = Lt, H2 : key_cmp ?b ?c = Lt,
    H3 : key_cmp ?c ?a = Lt |- _ =>
      exfalso; exact (key_lt_asym a c (key_cmp_trans _ _ _ H1 H2) H3)
  end.

(** Equal states up to arithmetic in the counters. *)
Ltac state_eq :=
  repeat match goal with
  | |- _ :: _ = _ :: _ => f_equal
  | |- (_, _) = (_, _) => f_equal
  end; lia.

Section AggregatorFacts.

Context {K : Type} `{GroupKey K}.

Lemma count_of_upsert (k0 k : K) (b : Z) (acc : agg_state) :
  count_of k0 (upsert k b acc) =
  count_of k0 acc + (if key_eqb k0 k then 1 else 0).
Proof.
  induction acc as [|[k' [n s]] rest IH]; simpl.
  - lia.
  - destruct (key_cmp k k') eqn:Hc; simpl.
    + apply key_cmp_eq in Hc. subst k'. destruct (key_eqb k0 k); lia.
    + lia.
    + rewrite IH. lia.
Qed.

Lemma sum_of_upsert (k0 k : K) (b : Z) (acc : agg_state) :
  sum_of k0 (upsert k b acc) =
  sum_of k0 acc + (if key_eqb k0 k then b else 0).
Proof.
  induction acc as [|[k' [n s]] rest IH]; simpl.
  - lia.
  - destruct (key_cmp k k') eqn:Hc; simpl.
    + apply key_cmp_eq in Hc. subst k'. destruct (key_eqb k0 k); lia.
    + lia.
    + rewrite IH. lia.
Qed.

Lemma keys_upsert (k0 k : K) (b : Z) (acc : agg_state) :
  In k0 (keys (upsert k b acc)) <-> k0 = k \/ In k0 (keys acc).
Proof.
  induction acc as [|[k' [n s]] rest IH]; simpl.
  - intuition.
  - destruct (key_cmp k k') eqn:Hc; simpl.
    + apply key_cmp_eq in Hc. subst k'. intuition.
    + intuition.
    + rewrite IH. intuition.
Qed.

Lemma upsert_sorted (k : K) (b : Z) (acc : agg_state) :
  StronglySorted key_lt (keys acc) ->
  StronglySorted key_lt (keys (upsert k b acc)).
Proof.
  induction acc as [|[k' [n s]] rest IH]; simpl; intros Hs.
  - repeat constructor.
  - inversion Hs as [|? ? Hrest Hall]; subst.
    destruct (key_cmp k k') eqn:Hc; simpl.
    + exact Hs.
    + constructor; [exact Hs|]. constructor; [exact Hc|].
      rewrite Forall_forall in *. intros x Hx.
      exact (key_cmp_trans _ _ _ Hc (Hall x Hx)).
    + constructor; [apply IH; exact Hrest|].
      rewrite Forall_forall in *. intros x Hx.
      apply keys_upsert in Hx. destruct Hx as [->|Hx]; [|auto].
      apply key_cmp_Gt. exact Hc.
Qed.

Lemma upsert_comm (k1 k2 : K) (b1 b2 : Z) (acc : agg_state) :
  upsert k1 b1 (upsert k2 b2 acc) = upsert k2 b2 (upsert k1 b1 acc).
Proof.
  induction acc as [|[k' [n s]] rest IH]; simpl.
  - destruct (key_cmp k1 k2) eqn:H12; destruct (key_cmp k2 k1) eqn:H21;
      try key_contra; key_norm; try reflexivity.
    state_eq.
  - destruct (key_cmp k2 k') eqn:H2; destruct (key_cmp k1 k') eqn:H1; simpl;
      rewrite ?H1, ?H2; try rewrite IH; try reflexivity;
      try (destruct (key_cmp k1 k2) eqn:H12; try key_contra);
      try (destruct (key_cmp k2 k1) eqn:H21; try key_contra);
      key_norm; rewrite ?key_cmp_refl; try reflexivity;
      try state_eq.
Qed.

End AggregatorFacts.

Lemma sum_flags (l : list row) :
  (forall r, In r l -> flag (is_booking r)) ->
  sumZ (map is_booking l) = count booked l.
Proof.
  unfold count, booked.
  induction l as [|r l IH]; simpl; intros Hall; [reflexivity|].
  rewrite IH by auto.
  destruct (Hall r (or_introl eq_refl)) as [Hr|Hr]; rewrite Hr;
    [change (0 =? 1) with false | change (1 =? 1) with true];
    cbn [List.length]; lia.
Qed.

Section FoldFacts.

Context {K : Type} `{GroupKey K}.

Variable by_col : row -> option K.

Lemma key_eqb_sym (a b : K) : key_eqb a b = key_eqb b a.
Proof.
  destruct (key_eqb b a) eqn:Hba.
  - apply key_eqb_eq in Hba. subst. apply key_eqb_refl.
  - apply key_eqb_neq in Hba. apply key_eqb_neq. congruence.
Qed.

Lemma fold_count (k : K) (df : list row) (acc : agg_state) :
  count_of k (fold_left (agg_step by_col) df acc) =
  count_of k acc + Z.of_nat (List.length (partition_of by_col k df)).
Proof.
  revert acc. unfold partition_of.
  induction df as [|r df IH]; intros acc; simpl; [lia|].
  rewrite IH. unfold agg_step, in_group.
  destruct (by_col r) as [k'|]; [|reflexivity].
  rewrite count_of_upsert, (key_eqb_sym k' k).
  destruct (key_eqb k k'); simpl List.length; lia.
Qed.

Lemma fold_sum (k : K) (df : list row) (acc : agg_state) :
  sum_of k (fold_left (agg_step by_col) df acc) =
  sum_of k acc + sumZ (map is_booking (partition_of by_col k df)).
Proof.
  revert acc. unfold partition_of.
  induction df as [|r df IH]; intros acc; simpl; [lia|].
  rewrite IH. unfold agg_step, in_group.
  destruct (by_col r) as [k'|]; [|reflexivity].
  rewrite sum_of_upsert, (key_eqb_sym k' k).
  destruct (key_eqb k k'); simpl; lia.
Qed.

Lemma fold_keys (k : K) (df : list row) (acc : agg_state) :
  In k (keys (fold_left (agg_step by_col) df acc)) <->
  In k (keys acc) \/ exists r, In r df /\ by_col r = Some k.
Proof.
  revert acc.
  induction df as [|r df IH]; intros acc; simpl.
  - split; [auto|]. intros [Hk|(r & [] & _)]. exact Hk.
  - rewrite IH. unfold agg_step.
    destruct (by_col r) as [k'|] eqn:Hr.
    + rewrite keys_upsert. split.
      * intros [[->|Hk]|(r' & Hin & Hr')]; eauto.
      * intros [Hk|(r' & [->|Hin] & Hr')]; eauto.
        left. left. congruence.
    + split.
      * intros [Hk|(r' & Hin & Hr')]; eauto.
      * intros [Hk|(r' & [->|Hin] & Hr')]; eauto. congruence.
Qed.

Lemma fold_sorted (df : list row) (acc : agg_state) :
  StronglySorted key_lt (keys acc) ->
  StronglySorted key_lt (keys (fold_left (agg_step by_col) df acc)).
Proof.
  revert acc. induction df as [|r df IH]; intros acc Hs; simpl; [exact Hs|].
  apply IH. unfold agg_step.
  destruct (by_col r); [apply upsert_sorted|]; exact Hs.
Qed.

Lemma agg_step_comm (acc : agg_state) (r1 r2 : row) :
  agg_step by_col (agg_step by_col acc r1) r2 =
  agg_step by_col (agg_step by_col acc r2) r1.
Proof.
  unfold agg_step.
  destruct (by_col r1), (by_col r2); try reflexivity. apply upsert_comm.
Qed.

Lemma fold_permutation (df df' : list row) (acc : agg_state) :
  Permutation df df' ->
  fold_left (agg_step by_col) df acc = fold_left (agg_step by_col) df' acc.
Proof.
  intros Hp. revert acc.
  induction Hp as [|r l l' _ IH|r1 r2 l|l l' l'' _ IH1 _ IH2];
    intros acc; simpl.
  - reflexivity.
  - apply IH.
  - rewrite agg_step_comm. reflexivity.
  - rewrite IH1. apply IH2.
Qed.

(** In a state sorted by key, the entry of a key holds its count and sum. *)
Lemma count_of_absent (k : K) (acc : agg_state) :
  ~ In k (keys acc) -> count_of k acc = 0 /\ sum_of k acc = 0.
Proof.
  induction acc as [|[k' [n s]] rest IH]; simpl; intros Hn; [auto|].
  destruct (key_eqb k k') eqn:He.
  - apply key_eqb_eq in He. subst. tauto.
  - destruct IH as [-> ->]; [tauto|]. auto.
Qed.

Lemma sorted_entry (k : K) (n s : Z) (acc : agg_state) :
  StronglySorted key_lt (keys acc) -> In (k, (n, s)) acc ->
  count_of k acc = n /\ sum_of k acc = s.
Proof.
  induction acc as [|[k' [n' s']] rest IH]; simpl; intros Hs Hin;
    [contradiction|].
  inversion Hs as [|? ? Hrest Hall]; subst.
  rewrite Forall_forall in Hall.
  destruct Hin as [Heq|Hin].
  - inversion Heq; subst. rewrite key_eqb_refl.
    destruct (count_of_absent k rest) as [-> ->]; [|lia].
    intros Hk. exact (key_lt_irrefl _ (Hall _ Hk)).
  - assert (Hk : In k (keys rest)) by (apply (in_map fst _ _ Hin)).
    rewrite (key_eqb_sym k k'), (key_lt_neq _ _ (Hall _ Hk)).
    destruct (IH Hrest Hin) as [-> ->]. lia.
Qed.

Lemma sorted_NoDup (l : list K) : StronglySorted key_lt l -> NoDup l.
Proof.
  induction 1 as [|a l _ IH Hall]; constructor; [|exact IH].
  rewrite Forall_forall in Hall. intros Ha.
  exact (key_lt_irrefl _ (Hall _ Ha)).
Qed.

Lemma total_upsert (k : K) (b : Z) (acc : agg_state) :
  total_count (upsert k b acc) = total_count acc + 1 /\
  total_sum (upsert k b acc) = total_sum acc + b.
Proof.
  unfold total_count, total_sum, sumZ.
  induction acc as [|[k' [n s]] rest IH]; cbn [upsert].
  - cbn [map fold_right fst snd]. lia.
  - destruct (key_cmp k k'); cbn [map fold_right fst snd] in *; lia.
Qed.

Lemma fold_totals (df : list row) (acc : agg_state) :
  total_count (fold_left (agg_step by_col) df acc) =
    total_count acc + count (keyed by_col) df /\
  total_sum (fold_left (agg_step by_col) df acc) =
    total_sum acc + sumZ (map is_booking (filter (keyed by_col) df)).
Proof.
  revert acc. unfold count.
  induction df as [|r df IH]; intros acc; simpl; [lia|].
  destruct (IH (agg_step by_col acc r)) as [-> ->].
  unfold agg_step, keyed. destruct (by_col r) as [k|]; [|lia].
  destruct (total_upsert k (is_booking r) acc) as [-> ->].
  simpl. lia.
Qed.

(** The summary frame against the state it is built from. *)
Lemma summary_groups (df : list row) :
  map group (calculate_conversion_rate df by_col) =
  keys (groupby_agg df by_col).
Proof.
  unfold calculate_conversion_rate, keys. rewrite map_map.
  apply map_ext. intros [k [n s]]. reflexivity.
Qed.

Lemma summary_entry (df : list row) (g : summary_row K) :
  In g (calculate_conversion_rate df by_col) ->
  In (group g, (searches g, bookings g)) (groupby_agg df by_col) /\
  conversion_rate g = rate (bookings g) (searches g).
Proof.
  unfold calculate_conversion_rate. rewrite in_map_iff.
  intros ([k [n s]] & <- & Hin). simpl. auto.
Qed.

Lemma groupby_sorted (df : list row) :
  StronglySorted key_lt (keys (groupby_agg df by_col)).
Proof. apply fold_sorted. constructor. Qed.

End FoldFacts.

Lemma rate_formula (b n : Z) :
  (rate b n == 100 * inject_Z b / inject_Z n)%Q.
Proof. unfold rate, Qdiv. ring. Qed.

Lemma load_scenario_csv : load_data scenario_csv = Ok scenario_df.
Proof. reflexivity. Qed.

Example scenario_by_device_package :
  map (fun g => (group g, searches g, bookings g,
                 Qeq_bool (conversion_rate g)
                   (if searches g =? bookings g then 100 else 50)))
      (calculate_conversion_rate scenario_df device_package) =
  [ ("Desktop, Non-Package", 2, 2, true); ("Mobile, Package", 2, 1, true) ].
Proof. reflexivity. Qed.

Section SummaryFacts.

Context {K : Type} `{GroupKey K}.

Lemma partition_of_In (by_col : row -> option K) (k : K) (df : list row)
  (r : row) :
  In r (partition_of by_col k df) <-> In r df /\ by_col r = Some k.
Proof.
  unfold partition_of, in_group. rewrite filter_In.
  destruct (by_col r) as [k'|].
  - rewrite key_eqb_eq. split; intros [Hin Hk]; split; congruence.
  - split; intros [_ Hk]; discriminate Hk.
Qed.

(** C2.  On a frame whose [is_booking] flags are 0 or 1, the summary has
    one line per distinct present value of the key; in the line of a value,
    [searches] is the size of its partition and is positive, [bookings] is
    the number of booked rows of the partition, [conversion_rate] is
    100 * bookings / searches; a row without a value of the key is in no
    partition. *)
Theorem calculate_conversion_rate_partitions (df : list row)
  (by_col : row -> option K) :
  (forall r, In r df -> flag (is_booking r)) ->
  NoDup (map group (calculate_conversion_rate df by_col)) /\
  (forall k, In k (map group (calculate_conversion_rate df by_col)) <->
             exists r, In r df /\ by_col r = Some k) /\
  (forall g, In g (calculate_conversion_rate df by_col) ->
     searches g = Z.of_nat (List.length (partition_of by_col (group g) df)) /\
     0 < searches g /\
     bookings g = count booked (partition_of by_col (group g) df) /\
     (conversion_rate g ==
      100 * inject_Z (bookings g) / inject_Z (searches g))%Q) /\
  (forall r k, by_col r = None -> ~ In r (partition_of by_col k df)).
Proof.
  intros Hflags.
  pose proof (groupby_sorted by_col df) as Hsorted.
  assert (Hkeys : forall k,
             In k (map group (calculate_conversion_rate df by_col)) <->
             exists r, In r df /\ by_col r = Some k).
  { intros k. rewrite summary_groups. unfold groupby_agg.
    rewrite fold_keys. simpl. tauto. }
  split; [|split; [exact Hkeys|split]].
  - rewrite summary_groups. apply sorted_NoDup. exact Hsorted.
  - intros g Hg.
    destruct (summary_entry by_col df g Hg) as [Hentry Hrate].
    destruct (sorted_entry _ _ _ _ Hsorted Hentry) as [Hcount Hsum].
    unfold groupby_agg in Hcount, Hsum.
    rewrite fold_count in Hcount. rewrite fold_sum in Hsum.
    simpl in Hcount, Hsum.
    assert (Hsearch :
      searches g = Z.of_nat (List.length (partition_of by_col (group g) df)))
      by lia.
    split; [exact Hsearch|]. split; [|split].
    + destruct (proj1 (Hkeys (group g)) (in_map group _ _ Hg))
        as (r & Hin & Hr).
      assert (Hp : In r (partition_of by_col (group g) df))
        by (apply partition_of_In; auto).
      rewrite Hsearch.
      destruct (partition_of by_col (group g) df); [contradiction|].
      simpl List.length. lia.
    + rewrite <- Hsum. apply sum_flags.
      intros r Hr. apply partition_of_In in Hr. apply Hflags. tauto.
    + rewrite Hrate. apply rate_formula.
  - intros r k Hnone Hin. apply partition_of_In in Hin.
    destruct Hin as [_ Hk]. congruence.
Qed.

(** C5.  On a frame whose [is_booking] flags are 0 or 1, the [bookings] of
    the summary add up to the number of booked rows that carry the key, and
    its [searches] to the number of rows that carry the key. *)
Theorem summary_totals (df : list row) (by_col : row -> option K) :
  (forall r, In r df -> flag (is_booking r)) ->
  sumZ (map bookings (calculate_conversion_rate df by_col)) =
    count booked (filter (keyed by_col) df) /\
  sumZ (map searches (calculate_conversion_rate df by_col)) =
    count (keyed by_col) df.
Proof.
  intros Hflags.
  destruct (fold_totals by_col df []) as [Hc Hs].
  unfold calculate_conversion_rate. rewrite !map_map.
  split.
  - rewrite <- sum_flags
      by (intros r Hr; apply filter_In in Hr; apply Hflags; tauto).
    transitivity (total_sum (groupby_agg df by_col)).
    + unfold total_sum. f_equal. apply map_ext. intros [k [n s]]. reflexivity.
    + unfold groupby_agg. rewrite Hs. reflexivity.
  - transitivity (total_count (groupby_agg df by_col)).
    + unfold total_count. f_equal. apply map_ext.
      intros [k [n s]]. reflexivity.
    + unfold groupby_agg. rewrite Hc. reflexivity.
Qed.

(** C6.  The summary of the empty frame is the empty frame, whatever the
    key: no group is formed and no rate is computed. *)
Theorem calculate_conversion_rate_empty (by_col : row -> option K) :
  calculate_conversion_rate [] by_col = [].
Proof. reflexivity. Qed.

(** C9.  The lines of the summary are in strictly ascending order of the
    key, and two frames with the same rows in different orders have the
    same summary. *)
Theorem summary_sorted_by_key (df df' : list row) (by_col : row -> option K) :
  Permutation df df' ->
  StronglySorted key_lt (map group (calculate_conversion_rate df by_col)) /\
  calculate_conversion_rate df' by_col = calculate_conversion_rate df by_col.
Proof.
  intros Hperm. split.
  - rewrite summary_groups. apply groupby_sorted.
  - unfold calculate_conversion_rate, groupby_agg.
    rewrite (fold_permutation by_col df df' [] Hperm). reflexivity.
Qed.

End SummaryFacts.

Lemma calculate_conversion_rate_partitions_witness :
  (forall r, In r scenario_df -> flag (is_booking r)) /\
  NoDup (map group (calculate_conversion_rate scenario_df device_package)) /\
  forall g, In g (calculate_conversion_rate scenario_df device_package) ->
            0 < searches g.
Proof.
  assert (Hflags : forall r, In r scenario_df -> flag (is_booking r)).
  { unfold flag. simpl. intros r [<-|[<-|[<-|[<-|[]]]]]; simpl; auto. }
  split; [exact Hflags|].
  destruct (calculate_conversion_rate_partitions scenario_df device_package
              Hflags) as (Hnodup & _ & Hlines & _).
  split; [exact Hnodup|].
  intros g Hg. destruct (Hlines g Hg) as (_ & Hpos & _). exact Hpos.
Defined.

Lemma summary_totals_witness :
  (forall r, In r scenario_df -> flag (is_booking r)) /\
  sumZ (map bookings (calculate_conversion_rate scenario_df device_package)) =
    3 /\
  sumZ (map searches (calculate_conversion_rate scenario_df device_package)) =
    4.
Proof.
  assert (Hflags : forall r, In r scenario_df -> flag (is_booking r)).
  { unfold flag. simpl. intros r [<-|[<-|[<-|[<-|[]]]]]; simpl; auto. }
  split; [exact Hflags|].
  exact (summary_totals scenario_df device_package Hflags).
Defined.

Lemma summary_sorted_by_key_witness :
  Permutation scenario_df (rev scenario_df) /\
  StronglySorted key_lt
    (map group (calculate_conversion_rate scenario_df device_package)) /\
  calculate_conversion_rate (rev scenario_df) device_package =
  calculate_conversion_rate scenario_df device_package.
Proof.
  assert (Hperm : Permutation scenario_df (rev scenario_df))
    by apply Permutation_rev.
  split; [exact Hperm|].
  exact (summary_sorted_by_key scenario_df (rev scenario_df) device_package
           Hperm).
Defined.

(** * Properties of the top-N views *)

Section TopN.

Context {K : Type} `{GroupKey K}.

Lemma insert_desc_perm (g : summary_row K) (l : list (summary_row K)) :
  Permutation (insert_desc g l) (g :: l).
Proof.
  induction l as [|h t IH]; simpl; [reflexivity|].
  destruct (Qle_bool (conversion_rate h) (conversion_rate g));
    [reflexivity|].
  rewrite IH. apply perm_swap.
Qed.

Lemma rate_ge_trans (a b c : summary_row K) :
  rate_ge a b -> rate_ge b c -> rate_ge a c.
Proof. unfold rate_ge. intros Hab Hbc. exact (Qle_trans _ _ _ Hbc Hab). Qed.

Lemma insert_desc_sorted (g : summary_row K) (l : list (summary_row K)) :
  StronglySorted rate_ge l -> StronglySorted rate_ge (insert_desc g l).
Proof.
  induction l as [|h t IH]; simpl; intros Hs.
  - repeat constructor.
  - inversion Hs as [|? ? Ht Hall]; subst.
    destruct (Qle_bool (conversion_rate h) (conversion_rate g)) eqn:Hle.
    + apply Qle_bool_iff in Hle.
      constructor; [exact Hs|]. constructor; [exact Hle|].
      rewrite Forall_forall in *. intros x Hx.
      exact (rate_ge_trans g h x Hle (Hall x Hx)).
    + assert (Hgh : rate_ge h g).
      { unfold rate_ge. apply Qlt_le_weak. apply Qnot_le_lt.
        intros Hc. apply Qle_bool_iff in Hc. congruence. }
      constructor; [apply IH; exact Ht|].
      rewrite Forall_forall in *. intros x Hx.
      apply (Permutation_in _ (insert_desc_perm g t)) in Hx.
      destruct Hx as [<-|Hx]; auto.
Qed.

Lemma sort_values_desc_perm (l : list (summary_row K)) :
  Permutation (sort_values_desc l) l.
Proof.
  induction l as [|g l IH]; simpl; [reflexivity|].
  rewrite insert_desc_perm. constructor. exact IH.
Qed.

Lemma sort_values_desc_sorted (l : list (summary_row K)) :
  StronglySorted rate_ge (sort_values_desc l).
Proof.
  induction l as [|g l IH]; simpl; [constructor|].
  apply insert_desc_sorted. exact IH.
Qed.

Lemma sorted_app_inv (l1 l2 : list (summary_row K)) :
  StronglySorted rate_ge (l1 ++ l2) ->
  StronglySorted rate_ge l1 /\
  forall g h, In g l1 -> In h l2 -> rate_ge g h.
Proof.
  induction l1 as [|a l1 IH]; simpl; intros Hs.
  - split; [constructor|]. intros g h [].
  - inversion Hs as [|? ? Ht Hall]; subst.
    destruct (IH Ht) as [Hs1 Hcross].
    rewrite Forall_forall in Hall. split.
    + constructor; [exact Hs1|]. rewrite Forall_forall.
      intros x Hx. apply Hall. apply in_or_app. auto.
    + intros g h [<-|Hg] Hh; [|auto].
      apply Hall. apply in_or_app. auto.
Qed.

Lemma top_n_is_top_n (n : nat) (summary : list (summary_row K)) :
  is_top_n n summary (top_n n summary).
Proof.
  unfold top_n, head.
  change (filter enough_searches summary)
    with (filter has_100_searches summary).
  set (kept := filter has_100_searches summary).
  pose proof (sort_values_desc_perm kept) as Hperm.
  pose proof (sort_values_desc_sorted kept) as Hsorted.
  rewrite <- (firstn_skipn n (sort_values_desc kept)) in Hperm, Hsorted.
  destruct (sorted_app_inv _ _ Hsorted) as [Hfirst Hcross].
  exists (skipn n (sort_values_desc kept)).
  split; [exact Hperm|]. split; [exact Hfirst|]. split; [exact Hcross|].
  split; [|split].
  - rewrite length_firstn.
    rewrite (Permutation_length (sort_values_desc_perm kept)). reflexivity.
  - intros g Hg.
    assert (Hk : In g kept).
    { apply (Permutation_in _ Hperm). apply in_or_app. auto. }
    apply filter_In in Hk. destruct Hk as [Hin Hmin]. split; [exact Hin|].
    unfold has_100_searches in Hmin. apply Z.leb_le. exact Hmin.
  - intros g Hin Hmin. apply in_app_or.
    apply (Permutation_in _ (Permutation_sym Hperm)).
    apply filter_In. split; [exact Hin|].
    unfold has_100_searches. apply Z.leb_le. exact Hmin.
Qed.

End TopN.

(** A group with 50 searches, all booked, is in no top-N view. *)
Example top_n_drops_small_groups :
  map group
    (top_n 2 [ mkSummary 11 50 50 (rate 50 50);
               mkSummary 12 200 20 (rate 20 200);
               mkSummary 13 150 30 (rate 30 150);
               mkSummary 14 100 5 (rate 5 100) ]) = [13; 12].
Proof. reflexivity. Qed.

(** C8.  Each of the three top-N views (hotel markets, user countries,
    customer segments) is the first 10 or 15 lines, by descending conversion
    rate, of the summary lines with at least 100 searches; a line with
    fewer searches is in none of them. *)
Theorem top_views_floor_then_rank (df : list row) :
  is_top_n 10
    (calculate_conversion_rate df (fun r => Some (hotel_market r)))
    (top_markets df) /\
  is_top_n 10
    (calculate_conversion_rate df (fun r => Some (user_location_country r)))
    (top_countries df) /\
  is_top_n 15
    (calculate_conversion_rate (dropna full_segment df) full_segment)
    (top_segments df).
Proof.
  unfold top_markets, top_countries, top_segments.
  repeat split; apply top_n_is_top_n.
Qed.

(** * Further properties of the feature derivation *)

(** X1.  In every row of the loaded frame, a defined [trip_duration] falls
    in exactly one of the intervals up to 3, 4 to 7, 8 to 14, 15 and more,
    and [duration_category] is the label of that interval; a defined
    [booking_window] falls in one of the intervals below 7, 7 to 13, 14 to
    29, 30 to 59, 60 to 89, 90 and more, and [window_category] is its
    label. *)
Theorem ladders_on_defined_values (csv : list raw_row) (df : list row)
  (e : row) (d w : Z) :
  load_data csv = Ok df -> In e df ->
  (trip_duration e = Some d ->
   (d <= 3 /\ duration_category e = Some "1-3 days") \/
   (4 <= d <= 7 /\ duration_category e = Some "4-7 days") \/
   (8 <= d <= 14 /\ duration_category e = Some "8-14 days") \/
   (15 <= d /\ duration_category e = Some "15+ days")) /\
  (booking_window e = Some w ->
   (w < 7 /\ window_category e = Some "0-6 days") \/
   (7 <= w < 14 /\ window_category e = Some "7-13 days") \/
   (14 <= w < 30 /\ window_category e = Some "14-29 days") \/
   (30 <= w < 60 /\ window_category e = Some "30-59 days") \/
   (60 <= w < 90 /\ window_category e = Some "60-89 days") \/
   (90 <= w /\ window_category e = Some "90+ days")).
Proof.
  intros Hload Hin.
  destruct (loaded_categories _ _ _ Hload Hin) as [Hdc Hwc].
  rewrite Hdc, Hwc. split.
  - intros ->. rewrite duration_category_of_Some.
    destruct (d <=? 3) eqn:H3; [left; split; [lia|reflexivity]|].
    destruct (d <=? 7) eqn:H7; [right; left; split; [lia|reflexivity]|].
    destruct (d <=? 14) eqn:H14;
      [right; right; left; split; [lia|reflexivity]|].
    right; right; right. split; [lia|reflexivity].
  - intros ->. rewrite window_category_of_Some.
    destruct (w <? 7) eqn:H7; [left; split; [lia|reflexivity]|].
    destruct (w <? 14) eqn:H14; [right; left; split; [lia|reflexivity]|].
    destruct (w <? 30) eqn:H30;
      [right; right; left; split; [lia|reflexivity]|].
    destruct (w <? 60) eqn:H60;
      [right; right; right; left; split; [lia|reflexivity]|].
    destruct (w <? 90) eqn:H90;
      [right; right; right; right; left; split; [lia|reflexivity]|].
    right; right; right; right; right. split; [lia|reflexivity].
Qed.

Lemma ladders_on_defined_values_witness :
  load_data sample_csv = Ok sample_df /\ In row1 sample_df /\
  trip_duration row1 = Some 3 /\ booking_window row1 = Some (-1) /\
  duration_category row1 = Some "1-3 days" /\
  window_category row1 = Some "0-6 days".
Proof.
  assert (Hload : load_data sample_csv = Ok sample_df) by reflexivity.
  assert (Hin : In row1 sample_df) by (simpl; auto).
  assert (Hd : trip_duration row1 = Some 3) by reflexivity.
  assert (Hw : booking_window row1 = Some (-1)) by reflexivity.
  destruct (ladders_on_defined_values sample_csv sample_df row1 3 (-1)
              Hload Hin) as [Hdur Hwin].
  split; [exact Hload|]. split; [exact Hin|].
  split; [exact Hd|]. split; [exact Hw|]. split.
  - destruct (Hdur Hd) as [[_ Hc]|[[Hb _]|[[Hb _]|[Hb _]]]];
      [exact Hc|lia|lia|lia].
  - destruct (Hwin Hw) as [[_ Hc]|[[Hb _]|[[Hb _]|[[Hb _]|[[Hb _]|[Hb _]]]]]];
      [exact Hc|lia|lia|lia|lia|lia].
Defined.

Lemma loaded_distance (csv : list raw_row) (df : list row) (e : row) :
  load_data csv = Ok df -> In e df ->
  distance_category e =
  Some (distance_category_of (orig_destination_distance e)).
Proof.
  intros Hload Hin.
  destruct (load_data_In _ _ _ Hload Hin) as (r & _ & Hd).
  unfold derive in Hd.
  destruct (to_datetime (raw_date_time r)); simpl in Hd; [|discriminate].
  inversion Hd; subst. reflexivity.
Qed.

Lemma Qle_bool_false (a b : Q) : Qle_bool a b = false -> (b < a)%Q.
Proof.
  intros Hf. apply Qnot_le_lt. intros Hle.
  apply Qle_bool_iff in Hle. congruence.
Qed.

(** X2.  In every row of the loaded frame with a known distance, the
    distance falls in exactly one of the intervals below 100, from 100 to
    below 500, from 500 to below 1000, from 1000 to below 2000, 2000 and
    more, and [distance_category] is the label of that interval: each
    threshold belongs to the interval above it. *)
Theorem distance_ladder_on_defined_values (csv : list raw_row)
  (df : list row) (e : row) (q : Q) :
  load_data csv = Ok df -> In e df ->
  orig_destination_distance e = Some q ->
  (q < 100 /\ distance_category e = Some "< 100")%Q \/
  (100 <= q /\ q < 500 /\ distance_category e = Some "100-500")%Q \/
  (500 <= q /\ q < 1000 /\ distance_category e = Some "500-1000")%Q \/
  (1000 <= q /\ q < 2000 /\ distance_category e = Some "1000-2000")%Q \/
  (2000 <= q /\ distance_category e = Some "> 2000")%Q.
Proof.
  intros Hload Hin Hq.
  rewrite (loaded_distance _ _ _ Hload Hin), Hq.
  unfold distance_category_of, qlt_c, qge_c. cbn [np_select].
  destruct (Qle_bool 100 q) eqn:H100; cbn [negb].
  2:{ left. split; [apply Qle_bool_false; exact H100|reflexivity]. }
  apply Qle_bool_iff in H100. right.
  destruct (Qle_bool 500 q) eqn:H500; cbn [negb].
  2:{ left. repeat split; [exact H100|apply Qle_bool_false; exact H500]. }
  apply Qle_bool_iff in H500. right.
  destruct (Qle_bool 1000 q) eqn:H1000; cbn [negb].
  2:{ left. repeat split; [exact H500|apply Qle_bool_false; exact H1000]. }
  apply Qle_bool_iff in H1000. right.
  destruct (Qle_bool 2000 q) eqn:H2000; cbn [negb].
  2:{ left. repeat split; [exact H1000|apply Qle_bool_false; exact H2000]. }
  apply Qle_bool_iff in H2000. right. split; [exact H2000|reflexivity].
Qed.

Lemma distance_ladder_on_defined_values_witness :
  load_data [line_distance] = Ok [row_distance] /\
  In row_distance [row_distance] /\
  orig_destination_distance row_distance = Some 100%Q /\
  distance_category row_distance = Some "100-500".
Proof.
  assert (Hload : load_data [line_distance] = Ok [row_distance])
    by reflexivity.
  assert (Hin : In row_distance [row_distance]) by (simpl; auto).
  assert (Hq : orig_destination_distance row_distance = Some 100%Q)
    by reflexivity.
  split; [exact Hload|]. split; [exact Hin|]. split; [exact Hq|].
  destruct (distance_ladder_on_defined_values [line_distance] [row_distance]
              row_distance 100%Q Hload Hin Hq)
    as [[Hb _]|[(_ & _ & Hc)|[[Hb _]|[[Hb _]|[Hb _]]]]];
    [|exact Hc| | |]; exfalso; revert Hb; unfold Qlt, Qle; simpl; lia.
Defined.

Lemma div_floor_bounds (a : Z) :
  (a / ns_per_day) * ns_per_day <= a < (a / ns_per_day + 1) * ns_per_day /\
  (a / ns_per_day < 0 <-> a < 0).
Proof.
  assert (Hpos : 0 < ns_per_day) by reflexivity.
  pose proof (Z.mul_div_le a ns_per_day Hpos) as Hlo.
  pose proof (Z.mul_succ_div_gt a ns_per_day Hpos) as Hhi.
  split; [lia|]. split; intros Hneg.
  - nia.
  - apply Z.div_lt_upper_bound; lia.
Qed.

(** X3.  In every row of the loaded frame with a search instant and a
    check-in date, [booking_window] is the time from the search to the
    check-in in days rounded down, so it is negative exactly when the
    check-in lies before the search instant (a search during the day of
    the check-in gives -1); [trip_duration] is the time from check-in to
    check-out rounded down in the same way. *)
Theorem day_counts_round_down (csv : list raw_row) (df : list row) (e : row)
  (dt ci co : Timestamp) :
  load_data csv = Ok df -> In e df ->
  (date_time e = Some dt -> srch_ci e = Some ci ->
   exists w, booking_window e = Some w /\
             w * ns_per_day <= ci - dt < (w + 1) * ns_per_day /\
             (w < 0 <-> ci < dt)) /\
  (srch_ci e = Some ci -> srch_co e = Some co ->
   exists d, trip_duration e = Some d /\
             d * ns_per_day <= co - ci < (d + 1) * ns_per_day /\
             (d < 0 <-> co < ci)).
Proof.
  intros Hload Hin.
  destruct (load_data_In _ _ _ Hload Hin) as (r & _ & Hd).
  apply derive_columns in Hd.
  destruct Hd as (_ & _ & _ & _ & _ & _ & _ & _ & _ & Htd & Hbw & _).
  split.
  - intros Hdt Hci. rewrite Hbw, Hdt, Hci. simpl. unfold td_days.
    exists ((ci - dt) / ns_per_day). split; [reflexivity|].
    destruct (div_floor_bounds (ci - dt)) as [Hb Hs]. split; [exact Hb|].
    rewrite Hs. lia.
  - intros Hci Hco. rewrite Htd, Hci, Hco. simpl. unfold td_days.
    exists ((co - ci) / ns_per_day). split; [reflexivity|].
    destruct (div_floor_bounds (co - ci)) as [Hb Hs]. split; [exact Hb|].
    rewrite Hs. lia.
Qed.

Lemma day_counts_round_down_witness :
  load_data [line_same_day] = Ok [row_same_day] /\
  In row_same_day [row_same_day] /\
  date_time row_same_day = Some (day 16071 + hour 10) /\
  srch_ci row_same_day = Some (day 16071) /\
  srch_co row_same_day = Some (day 16071) /\
  (exists w, booking_window row_same_day = Some w /\
             w * ns_per_day <= day 16071 - (day 16071 + hour 10)
               < (w + 1) * ns_per_day /\
             (w < 0 <-> day 16071 < day 16071 + hour 10)) /\
  (exists d, trip_duration row_same_day = Some d /\
             d * ns_per_day <= day 16071 - day 16071
               < (d + 1) * ns_per_day /\
             (d < 0 <-> day 16071 < day 16071)).
Proof.
  assert (Hload : load_data [line_same_day] = Ok [row_same_day])
    by reflexivity.
  assert (Hin : In row_same_day [row_same_day]) by (simpl; auto).
  assert (Hdt : date_time row_same_day = Some (day 16071 + hour 10))
    by reflexivity.
  assert (Hci : srch_ci row_same_day = Some (day 16071)) by reflexivity.
  assert (Hco : srch_co row_same_day = Some (day 16071)) by reflexivity.
  destruct (day_counts_round_down [line_same_day] [row_same_day]
              row_same_day (day 16071 + hour 10) (day 16071) (day 16071)
              Hload Hin) as [Hwin Hdur].
  split; [exact Hload|]. split; [exact Hin|]. split; [exact Hdt|].
  split; [exact Hci|]. split; [exact Hco|].
  split; [exact (Hwin Hdt Hci)|exact (Hdur Hci Hco)].
Defined.

Lemma derive_kept_from (r : raw_row) (e : row) :
  derive r = Ok e -> kept_from r e.
Proof.
  unfold derive.
  destruct (raw_date_time r) as [|text|t] eqn:Hdt; simpl; intros Hd;
    try discriminate; inversion Hd; subst; clear Hd;
    unfold kept_from, no_instant; rewrite Hdt; cbn;
    (split; [repeat split|]); (split; [repeat split|]).
  - split; [intros _|split; intros Hn].
    + split; [reflexivity|].
      destruct (to_datetime_coerce (raw_srch_ci r)); reflexivity.
    + rewrite Hn. split; [|reflexivity].
      destruct (to_datetime_coerce (raw_srch_co r)); reflexivity.
    + rewrite Hn. reflexivity.
  - split; [intros Hn; discriminate Hn|split; intros Hn].
    + rewrite Hn. split; [|reflexivity].
      destruct (to_datetime_coerce (raw_srch_co r)); reflexivity.
    + rewrite Hn. reflexivity.
Qed.

(** X18.  Whenever [load_data] returns, the frame has one row per line of
    the file, in file order; each row keeps every base column of its line,
    and where the [date_time] cell is empty, or the [srch_ci] or [srch_co]
    cell is empty or no date, the numbers computed from that cell
    ([year_month], [trip_duration], [booking_window]) are missing. *)
Theorem loaded_frame_keeps_every_line (csv : list raw_row) (df : list row) :
  load_data csv = Ok df ->
  List.length df = List.length csv /\ Forall2 kept_from csv df.
Proof.
  intros Hload. apply mapM_Ok_Forall2 in Hload.
  split; [symmetry; exact (Forall2_length Hload)|].
  induction Hload; constructor; auto using derive_kept_from.
Qed.

Lemma loaded_frame_keeps_every_line_witness :
  load_data sample_csv = Ok sample_df /\
  List.length sample_df = List.length sample_csv /\
  Forall2 kept_from sample_csv sample_df.
Proof.
  assert (Hload : load_data sample_csv = Ok sample_df) by reflexivity.
  split; [exact Hload|].
  exact (loaded_frame_keeps_every_line sample_csv sample_df Hload).
Defined.

(** * Further properties of the aggregation *)

Lemma rate_bounds (b n : Z) :
  0 <= b <= n -> 0 < n -> (0 <= rate b n <= 100)%Q.
Proof.
  intros Hb Hn. unfold rate.
  assert (Hnq : (0 < inject_Z n)%Q)     by (change (inject_Z 0 < inject_Z n)%Q; rewrite <- Zlt_Qlt; exact Hn).
  assert (Hlo : (0 <= inject_Z b / inject_Z n)%Q).
  { apply Qle_shift_div_l; [exact Hnq|]. rewrite Qmult_0_l.
    change (inject_Z 0 <= inject_Z b)%Q. rewrite <- Zle_Qle. lia. }
  assert (Hhi : (inject_Z b / inject_Z n <= 1)%Q).
  { apply Qle_shift_div_r; [exact Hnq|]. rewrite Qmult_1_l.
    rewrite <- Zle_Qle. lia. }
  split.
  - apply Qmult_le_0_compat; [exact Hlo|discriminate].
  - setoid_replace 100%Q with (1 * 100)%Q at 2 by reflexivity.
    apply Qmult_le_compat_r; [exact Hhi|discriminate].
Qed.

Section SummaryLines.

Context {K : Type} `{GroupKey K}.

Variable by_col : row -> option K.

(** A line of the summary against the partition of its key. *)
Lemma summary_line (df : list row) (g : summary_row K) :
  In g (calculate_conversion_rate df by_col) ->
  searches g = Z.of_nat (List.length (partition_of by_col (group g) df)) /\
  bookings g = sumZ (map is_booking (partition_of by_col (group g) df)) /\
  conversion_rate g = rate (bookings g) (searches g) /\
  exists r, In r df /\ by_col r = Some (group g).
Proof.
  intros Hg.
  destruct (summary_entry by_col df g Hg) as [Hentry Hrate].
  destruct (sorted_entry _ _ _ _ (groupby_sorted by_col df) Hentry)
    as [Hcount Hsum].
  unfold groupby_agg in Hcount, Hsum.
  rewrite fold_count in Hcount. rewrite fold_sum in Hsum.
  simpl in Hcount, Hsum.
  split; [lia|]. split; [lia|]. split; [exact Hrate|].
  assert (Hk : In (group g) (keys (groupby_agg df by_col))).
  { rewrite <- summary_groups. apply in_map. exact Hg. }
  unfold groupby_agg in Hk. rewrite fold_keys in Hk. simpl in Hk.
  destruct Hk as [[]|Hk]. exact Hk.
Qed.

Lemma partition_nonempty (df : list row) (k : K) (r : row) :
  In r df -> by_col r = Some k ->
  0 < Z.of_nat (List.length (partition_of by_col k df)).
Proof.
  intros Hin Hr.
  assert (Hp : In r (partition_of by_col k df))
    by (apply partition_of_In; auto).
  destruct (partition_of by_col k df); [contradiction|].
  simpl List.length. lia.
Qed.

Lemma count_booked_le (l : list row) :
  0 <= count booked l <= Z.of_nat (List.length l).
Proof.
  unfold count. induction l as [|r l IH]; simpl; [lia|].
  destruct (booked r); simpl List.length; lia.
Qed.

(** X4.  On a frame whose [is_booking] flags are 0 or 1, every line of the
    summary has between 0 and [searches] bookings and a conversion rate
    between 0 and 100. *)
Theorem conversion_rate_bounds (df : list row) (g : summary_row K) :
  (forall r, In r df -> flag (is_booking r)) ->
  In g (calculate_conversion_rate df by_col) ->
  0 <= bookings g <= searches g /\
  (0 <= conversion_rate g <= 100)%Q.
Proof.
  intros Hflags Hg.
  destruct (summary_line df g Hg) as (Hs & Hb & Hrate & r & Hin & Hr).
  rewrite sum_flags in Hb
    by (intros x Hx; apply partition_of_In in Hx; apply Hflags; tauto).
  pose proof (count_booked_le (partition_of by_col (group g) df)) as Hle.
  pose proof (partition_nonempty df (group g) r Hin Hr) as Hpos.
  assert (Hbounds : 0 <= bookings g <= searches g) by lia.
  split; [exact Hbounds|].
  rewrite Hrate. apply rate_bounds; [exact Hbounds|lia].
Qed.

End SummaryLines.

Lemma conversion_rate_bounds_witness :
  (forall r, In r scenario_df -> flag (is_booking r)) /\
  forall g, In g (calculate_conversion_rate scenario_df device_package) ->
            0 <= bookings g <= searches g /\
            (0 <= conversion_rate g <= 100)%Q.
Proof.
  assert (Hflags : forall r, In r scenario_df -> flag (is_booking r)).
  { unfold flag. simpl. intros r [<-|[<-|[<-|[<-|[]]]]]; simpl; auto. }
  split; [exact Hflags|].
  intros g Hg.
  exact (conversion_rate_bounds device_package scenario_df g Hflags Hg).
Defined.

Section SummaryShape.

Context {K : Type} `{GroupKey K}.

Variable by_col : row -> option K.

Lemma upsert_counts_positive (k : K) (b : Z) (acc : agg_state) :
  Forall (fun e : K * (Z * Z) => 1 <= fst (snd e)) acc ->
  Forall (fun e : K * (Z * Z) => 1 <= fst (snd e)) (upsert k b acc).
Proof.
  induction acc as [|[k' [n s]] rest IH]; simpl; intros Hall.
  - constructor; [simpl; lia|constructor].
  - inversion Hall as [|? ? Hn Hrest]; subst. simpl in Hn.
    destruct (key_cmp k k').
    + constructor; [simpl; lia|exact Hrest].
    + constructor; [simpl; lia|exact Hall].
    + constructor; [exact Hn|apply IH; exact Hrest].
Qed.

Lemma fold_counts_positive (df : list row) (acc : agg_state) :
  Forall (fun e : K * (Z * Z) => 1 <= fst (snd e)) acc ->
  Forall (fun e : K * (Z * Z) => 1 <= fst (snd e))
         (fold_left (agg_step by_col) df acc).
Proof.
  revert acc. induction df as [|r df IH]; intros acc Hall; simpl;
    [exact Hall|].
  apply IH. unfold agg_step.
  destruct (by_col r); [apply upsert_counts_positive|]; exact Hall.
Qed.

Lemma total_count_lower (acc : agg_state) :
  Forall (fun e : K * (Z * Z) => 1 <= fst (snd e)) acc ->
  Z.of_nat (List.length acc) <= total_count acc.
Proof.
  unfold total_count, sumZ.
  induction 1 as [|e acc He _ IH]; cbn [map fold_right List.length]; lia.
Qed.

Lemma summary_empty_iff (df : list row) :
  calculate_conversion_rate df by_col = [] <->
  forall r, In r df -> by_col r = None.
Proof.
  split.
  - intros Hempty r Hin.
    destruct (by_col r) as [k|] eqn:Hr; [|reflexivity].
    assert (Hk : In k (map group (calculate_conversion_rate df by_col))).
    { rewrite summary_groups. unfold groupby_agg. apply fold_keys. eauto. }
    rewrite Hempty in Hk. destruct Hk.
  - intros Hnone.
    destruct (calculate_conversion_rate df by_col) as [|g l] eqn:Hs;
      [reflexivity|].
    assert (Hk : In (group g) (keys (groupby_agg df by_col))).
    { rewrite <- summary_groups, Hs. left. reflexivity. }
    unfold groupby_agg in Hk. apply fold_keys in Hk.
    destruct Hk as [[]|(r & Hin & Hr)].
    rewrite (Hnone r Hin) in Hr. discriminate Hr.
Qed.

(** X5.  The summary has no line exactly when no row of the frame carries
    the key, and it never has more lines than there are rows that carry
    the key. *)
Theorem summary_shape (df : list row) :
  (calculate_conversion_rate df by_col = [] <->
   forall r, In r df -> by_col r = None) /\
  Z.of_nat (List.length (calculate_conversion_rate df by_col)) <=
  count (keyed by_col) df.
Proof.
  split; [apply summary_empty_iff|].
  unfold calculate_conversion_rate. rewrite length_map.
  destruct (fold_totals by_col df []) as [Hc _].
  unfold groupby_agg. simpl in Hc. rewrite <- Hc.
  apply total_count_lower. apply fold_counts_positive. constructor.
Qed.

(** Filtering the rows by a predicate on their key and filtering the
    state by the same predicate. *)
Lemma keep_smaller (p : K -> bool) (k : K) (acc : agg_state) :
  Forall (key_lt k) (keys acc) -> Forall (key_lt k) (keys (keep p acc)).
Proof.
  unfold keep, keys. rewrite !Forall_forall. intros Hall x Hx.
  apply Hall. apply in_map_iff in Hx. destruct Hx as (e & <- & He).
  apply filter_In in He. apply in_map. tauto.
Qed.

Lemma upsert_below (k : K) (b : Z) (acc : agg_state) :
  Forall (key_lt k) (keys acc) -> upsert k b acc = (k, (1, b)) :: acc.
Proof.
  destruct acc as [|[k' [n s]] rest]; simpl; intros Hall; [reflexivity|].
  inversion Hall as [|? ? Hk _]; subst. unfold key_lt in Hk. rewrite Hk.
  reflexivity.
Qed.

Lemma upsert_keep_true (p : K -> bool) (k : K) (b : Z) (acc : agg_state) :
  StronglySorted key_lt (keys acc) -> p k = true ->
  upsert k b (keep p acc) = keep p (upsert k b acc).
Proof.
  intros Hs Hp.
  induction acc as [|[k' [n s]] rest IH].
  - simpl. rewrite Hp. reflexivity.
  - inversion Hs as [|? ? Hrest Hall]; subst.
    specialize (IH Hrest). cbn [upsert].
    destruct (key_cmp k k') eqn:Hc.
    + apply key_cmp_eq in Hc. subst k'. unfold keep. cbn [filter fst].
      rewrite Hp. cbn [upsert]. rewrite key_cmp_refl. reflexivity.
    + assert (Hbelow : Forall (key_lt k) (keys ((k', (n, s)) :: rest))).
      { constructor; [exact Hc|]. rewrite Forall_forall in *.
        intros x Hx. exact (key_cmp_trans _ _ _ Hc (Hall x Hx)). }
      rewrite (upsert_below k b _ (keep_smaller p k _ Hbelow)).
      unfold keep. cbn [filter fst]. rewrite Hp. reflexivity.
    + unfold keep in *. cbn [filter fst]. destruct (p k') eqn:Hp'.
      * cbn [upsert]. rewrite Hc. f_equal. exact IH.
      * exact IH.
Qed.

Lemma upsert_keep_false (p : K -> bool) (k : K) (b : Z) (acc : agg_state) :
  p k = false -> keep p (upsert k b acc) = keep p acc.
Proof.
  intros Hp. unfold keep.
  induction acc as [|[k' [n s]] rest IH]; cbn [upsert].
  - cbn [filter fst]. rewrite Hp. reflexivity.
  - destruct (key_cmp k k') eqn:Hc.
    + apply key_cmp_eq in Hc. subst k'. cbn [filter fst]. rewrite Hp.
      reflexivity.
    + cbn [filter fst]. rewrite Hp. reflexivity.
    + cbn [filter fst]. destruct (p k'); [f_equal|]; exact IH.
Qed.

Lemma fold_keep (p : K -> bool) (df : list row) (acc : agg_state) :
  StronglySorted key_lt (keys acc) ->
  fold_left (agg_step by_col) (filter (key_in by_col p) df) (keep p acc) =
  keep p (fold_left (agg_step by_col) df acc).
Proof.
  revert acc. induction df as [|r df IH]; intros acc Hs; [reflexivity|].
  cbn [filter fold_left].
  assert (Hs' : StronglySorted key_lt (keys (agg_step by_col acc r))).
  { unfold agg_step. destruct (by_col r); [apply upsert_sorted|]; exact Hs. }
  rewrite <- (IH _ Hs').
  assert (Hstep : keep p (agg_step by_col acc r) =
                  if key_in by_col p r
                  then agg_step by_col (keep p acc) r
                  else keep p acc).
  { unfold key_in, agg_step. destruct (by_col r) as [k|]; [|reflexivity].
    destruct (p k) eqn:Hp.
    - symmetry. apply upsert_keep_true; assumption.
    - apply upsert_keep_false. exact Hp. }
  rewrite Hstep. destruct (key_in by_col p r); reflexivity.
Qed.

Lemma aggregate_selected (p : K -> bool) (df : list row) :
  calculate_conversion_rate (filter (key_in by_col p) df) by_col =
  lines_in p (calculate_conversion_rate df by_col).
Proof.
  unfold calculate_conversion_rate, groupby_agg, lines_in.
  change (@nil (K * (Z * Z))) with (keep p (@nil (K * (Z * Z)))) at 1.
  rewrite fold_keep by constructor.
  generalize (fold_left (agg_step by_col) df []). intros acc.
  unfold keep. induction acc as [|[k [n s]] rest IH]; simpl; [reflexivity|].
  destruct (p k); simpl; rewrite IH; reflexivity.
Qed.

(** X6.  Selecting the rows whose key satisfies a condition and then
    aggregating gives the same lines as aggregating the whole frame and
    then keeping the lines whose key satisfies the condition. *)
Theorem select_then_aggregate (p : K -> bool) (df : list row) :
  calculate_conversion_rate (filter (key_in by_col p) df) by_col =
  lines_in p (calculate_conversion_rate df by_col).
Proof. apply aggregate_selected. Qed.

Lemma filter_keyed_selected (p : K -> bool) (df : list row) :
  filter (keyed by_col) (filter (key_in by_col p) df) =
  filter (key_in by_col p) df.
Proof.
  induction df as [|r df IH]; simpl; [reflexivity|].
  destruct (key_in by_col p r) eqn:Hr; [|exact IH].
  simpl. unfold key_in in Hr. unfold keyed at 1.
  destruct (by_col r); [|discriminate]. rewrite IH. reflexivity.
Qed.

(** The totals of the selected lines are the totals of the selected rows. *)
Lemma selected_totals (p : K -> bool) (df : list row) :
  sumZ (map searches (lines_in p (calculate_conversion_rate df by_col))) =
    count (key_in by_col p) df /\
  sumZ (map bookings (lines_in p (calculate_conversion_rate df by_col))) =
    sumZ (map is_booking (filter (key_in by_col p) df)).
Proof.
  rewrite <- aggregate_selected.
  destruct (fold_totals by_col (filter (key_in by_col p) df) []) as [Hc Hs].
  unfold count in Hc. rewrite filter_keyed_selected in Hc, Hs.
  unfold calculate_conversion_rate. rewrite !map_map. split.
  - transitivity
      (total_count (groupby_agg (filter (key_in by_col p) df) by_col)).
    + unfold total_count. f_equal. apply map_ext.
      intros [k [n s]]. reflexivity.
    + unfold groupby_agg. rewrite Hc. reflexivity.
  - transitivity
      (total_sum (groupby_agg (filter (key_in by_col p) df) by_col)).
    + unfold total_sum. f_equal. apply map_ext. intros [k [n s]]. reflexivity.
    + unfold groupby_agg. rewrite Hs. reflexivity.
Qed.

End SummaryShape.

(** * Properties of the trip-duration views *)

Lemma dropna_present {A : Type} (col : row -> option A) (df : list row) :
  (forall r, In r df -> col r <> None) -> dropna col df = df.
Proof.
  unfold dropna. induction df as [|r df IH]; simpl; intros Hall;
    [reflexivity|].
  destruct (col r) eqn:Hr.
  - rewrite IH by auto. reflexivity.
  - exfalso. exact (Hall r (or_introl eq_refl) Hr).
Qed.

Lemma duration_category_of_nan (t : option Z) :
  duration_category_of t = nan_text <-> t = None.
Proof.
  destruct t as [d|]; [|split; reflexivity].
  rewrite duration_category_of_Some. split; [|discriminate].
  destruct (d <=? 3); [discriminate|]. destruct (d <=? 7); [discriminate|].
  destruct (d <=? 14); discriminate.
Qed.

Lemma length_count_all (by_col : row -> option string) (df : list row) :
  (forall r, In r df -> by_col r <> None) ->
  count (keyed by_col) df = Z.of_nat (List.length df).
Proof.
  unfold count. intros Hall. f_equal. f_equal.
  induction df as [|r df IH]; simpl; [reflexivity|].
  unfold keyed at 1. destruct (by_col r) eqn:Hr.
  - f_equal. apply IH. intros x Hx. apply Hall. right. exact Hx.
  - exfalso. exact (Hall r (or_introl eq_refl) Hr).
Qed.

(** X7.  On a loaded frame the [dropna] of the trip-duration view removes
    no row: the view aggregates the whole frame, its [searches] add up to
    the number of rows, and it has a line with the key "nan" exactly when
    some row has no [trip_duration]. *)
Theorem duration_view_keeps_all_rows (csv : list raw_row) (df : list row) :
  load_data csv = Ok df ->
  dropna duration_category df = df /\
  sumZ (map searches (duration_data df)) = Z.of_nat (List.length df) /\
  (In "nan" (map group (duration_data df)) <->
   exists e, In e df /\ trip_duration e = None).
Proof.
  intros Hload.
  assert (Hcat : forall e, In e df ->
            duration_category e =
            Some (duration_category_of (trip_duration e))).
  { intros e He. exact (proj1 (loaded_categories _ _ _ Hload He)). }
  assert (Hpresent : forall e, In e df -> duration_category e <> None).
  { intros e He. rewrite (Hcat e He). discriminate. }
  assert (Hdrop : dropna duration_category df = df)
    by (apply dropna_present; exact Hpresent).
  split; [exact Hdrop|]. unfold duration_data. rewrite Hdrop. split.
  - destruct (fold_totals duration_category df []) as [Hc _].
    rewrite <- (length_count_all duration_category df Hpresent).
    unfold calculate_conversion_rate. rewrite map_map.
    transitivity (total_count (groupby_agg df duration_category)).
    + unfold total_count. f_equal. apply map_ext.
      intros [k [n s]]. reflexivity.
    + unfold groupby_agg. rewrite Hc. reflexivity.
  - rewrite summary_groups. unfold groupby_agg. rewrite fold_keys. simpl.
    split.
    + intros [[]|(e & He & Hk)]. exists e. split; [exact He|].
      rewrite (Hcat e He) in Hk. inversion Hk as [Hnan].
      apply duration_category_of_nan. exact Hnan.
    + intros (e & He & Hnone). right. exists e. split; [exact He|].
      rewrite (Hcat e He), Hnone. reflexivity.
Qed.

Lemma duration_view_keeps_all_rows_witness :
  load_data sample_csv = Ok sample_df /\
  dropna duration_category sample_df = sample_df /\
  sumZ (map searches (duration_data sample_df)) = 4 /\
  (In "nan" (map group (duration_data sample_df)) <->
   exists e, In e sample_df /\ trip_duration e = None).
Proof.
  assert (Hload : load_data sample_csv = Ok sample_df) by reflexivity.
  split; [exact Hload|].
  exact (duration_view_keeps_all_rows sample_csv sample_df Hload).
Defined.

Lemma long_trip_rows (csv : list raw_row) (df : list row) (e : row) :
  load_data csv = Ok df -> In e df ->
  key_in duration_category (isin ["8-14 days"; "15+ days"]) e =
  gt_c (trip_duration e) 7.
Proof.
  intros Hload He. unfold key_in.
  rewrite (proj1 (loaded_categories _ _ _ Hload He)).
  destruct (trip_duration e) as [d|]; [|reflexivity].
  rewrite duration_category_of_Some. simpl gt_c.
  destruct (d <=? 3) eqn:H3; [simpl; symmetry; apply Z.ltb_ge; lia|].
  destruct (d <=? 7) eqn:H7; [simpl; symmetry; apply Z.ltb_ge; lia|].
  destruct (d <=? 14) eqn:H14; simpl; symmetry; apply Z.ltb_lt; lia.
Qed.

(** X8.  On a loaded frame whose [is_booking] flags are 0 or 1, the lines
    behind the Long Trip Rate hold, in all, as many [searches] as there are
    rows with a [trip_duration] above 7 and as many [bookings] as there are
    booked rows among them; the rate is replaced by the fixed text exactly
    when there is no such row. *)
Theorem long_trip_rate_pools_long_trips (csv : list raw_row)
  (df : list row) :
  load_data csv = Ok df ->
  (forall r, In r df -> flag (is_booking r)) ->
  sumZ (map searches (long_trip_data df)) =
    count (fun r => gt_c (trip_duration r) 7) df /\
  sumZ (map bookings (long_trip_data df)) =
    count booked (filter (fun r => gt_c (trip_duration r) 7) df) /\
  (avg_long_trip_rate df = None <->
   count (fun r => gt_c (trip_duration r) 7) df = 0).
Proof.
  intros Hload Hflags.
  assert (Hdrop : dropna duration_category df = df).
  { apply dropna_present. intros e He.
    rewrite (proj1 (loaded_categories _ _ _ Hload He)). discriminate. }
  assert (Hsel : filter (key_in duration_category
                           (isin ["8-14 days"; "15+ days"])) df =
                 filter (fun r => gt_c (trip_duration r) 7) df).
  { apply filter_ext_in. intros e He. exact (long_trip_rows _ _ _ Hload He). }
  destruct (selected_totals duration_category
              (isin ["8-14 days"; "15+ days"]) df) as [Hs Hb].
  unfold count in Hs. rewrite Hsel in Hs, Hb.
  unfold long_trip_data, duration_data in *. rewrite Hdrop.
  assert (Hsearch :
    sumZ (map searches
            (lines_in (isin ["8-14 days"; "15+ days"])
               (calculate_conversion_rate df duration_category))) =
    count (fun r => gt_c (trip_duration r) 7) df) by exact Hs.
  split; [exact Hsearch|]. split.
  - rewrite Hb. apply sum_flags.
    intros r Hr. apply filter_In in Hr. apply Hflags. tauto.
  - unfold avg_long_trip_rate, long_trip_data, duration_data.
    rewrite Hdrop. rewrite <- Hsearch.
    rewrite <- aggregate_selected.
    destruct (calculate_conversion_rate
                (filter (key_in duration_category
                           (isin ["8-14 days"; "15+ days"])) df)
                duration_category) as [|g l] eqn:Hlines.
    + split; reflexivity.
    + split; [discriminate|]. intros Hzero. exfalso.
      assert (Hg : In g (calculate_conversion_rate
                (filter (key_in duration_category
                           (isin ["8-14 days"; "15+ days"])) df)
                duration_category)) by (rewrite Hlines; left; reflexivity).
      destruct (summary_line duration_category _ g Hg)
        as (Hn & _ & _ & r & Hin & Hr).
      pose proof (partition_nonempty duration_category _ _ r Hin Hr) as Hpos.
      destruct (fold_totals duration_category
                  (filter (key_in duration_category
                             (isin ["8-14 days"; "15+ days"])) df) [])
        as [Hc _].
      assert (Hall : Forall (fun x : summary_row string => 0 <= searches x)
                            (g :: l)).
      { rewrite <- Hlines. apply Forall_forall. intros x Hx.
        destruct (summary_line duration_category _ x Hx) as (Hx1 & _).
        lia. }
      inversion Hall as [|? ? _ Hrest]; subst.
      assert (Hsum : 0 <= sumZ (map searches l)).
      { clear -Hrest. unfold sumZ.
        induction Hrest; cbn [map fold_right]; lia. }
      unfold sumZ in *. cbn [map fold_right] in Hzero. lia.
Qed.

Lemma long_trip_rate_pools_long_trips_witness :
  load_data trips_csv = Ok trips_df /\
  (forall r, In r trips_df -> flag (is_booking r)) /\
  sumZ (map searches (long_trip_data trips_df)) = 2 /\
  sumZ (map bookings (long_trip_data trips_df)) = 1.
Proof.
  assert (Hload : load_data trips_csv = Ok trips_df) by reflexivity.
  assert (Hflags : forall r, In r trips_df -> flag (is_booking r)).
  { unfold flag. simpl. intros r [<-|[<-|[<-|[]]]]; simpl; auto. }
  split; [exact Hload|]. split; [exact Hflags|].
  destruct (long_trip_rate_pools_long_trips trips_csv trips_df Hload Hflags)
    as (Hs & Hb & _).
  split; [exact Hs|exact Hb].
Defined.

(** * Properties of the prediction simulator *)

(** X9.  For a loaded row whose flags are 0 or 1, the simulator fed with
    the row's adult and child counts, its trip duration, its booking window
    and its two flags computes the labels [load_data] gave to the row:
    travel group, duration category, window category and device/package
    combination. *)
Theorem simulator_labels_agree (csv : list raw_row) (df : list row) (e : row)
  (d w : Z) :
  load_data csv = Ok df -> In e df ->
  trip_duration e = Some d -> booking_window e = Some w ->
  flag (is_mobile e) -> flag (is_package e) ->
  travel_group e =
    sim_travel_group (srch_adults_cnt e) (srch_children_cnt e) /\
  duration_category e = Some (sim_duration d) /\
  window_category e = Some (sim_window w) /\
  device_package e = Some (sim_device_package (is_mobile e) (is_package e)).
Proof.
  intros Hload Hin Hd Hw Hm Hp.
  destruct (load_data_In _ _ _ Hload Hin) as (r & _ & Hder).
  apply derive_columns in Hder.
  destruct Hder as (_ & _ & _ & _ & _ & _ & _ & _ & _ & _ & _ & Htg & Hdc
                    & Hwc & Hdp).
  rewrite Htg, Hdc, Hwc, Hdp, Hd, Hw.
  rewrite duration_category_of_Some, window_category_of_Some.
  split; [|split; [reflexivity|split; [reflexivity|]]].
  - unfold travel_group_of, sim_travel_group. cbn [np_select]. reflexivity.
  - unfold device_package_of, map_flag, sim_device_package.
    destruct Hm as [-> | ->], Hp as [-> | ->]; reflexivity.
Qed.

Lemma simulator_labels_agree_witness :
  load_data sample_csv = Ok sample_df /\ In row1 sample_df /\
  trip_duration row1 = Some 3 /\ booking_window row1 = Some (-1) /\
  flag (is_mobile row1) /\ flag (is_package row1) /\
  travel_group row1 =
    sim_travel_group (srch_adults_cnt row1) (srch_children_cnt row1) /\
  duration_category row1 = Some (sim_duration 3) /\
  window_category row1 = Some (sim_window (-1)) /\
  device_package row1 =
    Some (sim_device_package (is_mobile row1) (is_package row1)).
Proof.
  assert (Hload : load_data sample_csv = Ok sample_df) by reflexivity.
  assert (Hin : In row1 sample_df) by (simpl; auto).
  assert (Hd : trip_duration row1 = Some 3) by reflexivity.
  assert (Hw : booking_window row1 = Some (-1)) by reflexivity.
  assert (Hm : flag (is_mobile row1)) by (right; reflexivity).
  assert (Hp : flag (is_package row1)) by (left; reflexivity).
  split; [exact Hload|]. split; [exact Hin|]. split; [exact Hd|].
  split; [exact Hw|]. split; [exact Hm|]. split; [exact Hp|].
  exact (simulator_labels_agree sample_csv sample_df row1 3 (-1)
           Hload Hin Hd Hw Hm Hp).
Defined.

(** * Properties of the headline numbers *)

Lemma count_bounds (f : row -> bool) (df : list row) :
  0 <= count f df <= shape0 df.
Proof.
  unfold count, shape0. induction df as [|r df IH]; simpl; [lia|].
  destruct (f r); simpl List.length; lia.
Qed.

Lemma count_both_le (f g : row -> bool) (df : list row) :
  0 <= count (both f g) df <= count f df.
Proof.
  unfold count, both. induction df as [|r df IH]; simpl; [lia|].
  destruct (f r), (g r); simpl; simpl List.length; lia.
Qed.

Lemma count_positive_iff (f : row -> bool) (df : list row) :
  0 < count f df <-> exists r, In r df /\ f r = true.
Proof.
  unfold count. induction df as [|r df IH]; simpl.
  - split; [lia|]. intros (r & [] & _).
  - destruct (f r) eqn:Hr; simpl List.length.
    + split; [eauto|lia].
    + rewrite IH. split.
      * intros (x & Hx & Hfx). eauto.
      * intros (x & [->|Hx] & Hfx); [congruence|eauto].
Qed.

Lemma py_div_count (a : Q) (n : Z) :
  py_div a (inject_Z n) =
  if n =? 0 then Fails ZeroDivisionError else Done (a / inject_Z n)%Q.
Proof.
  unfold py_div.
  destruct (n =? 0) eqn:Hn.
  - apply Z.eqb_eq in Hn. subst. reflexivity.
  - apply Z.eqb_neq in Hn.
    destruct (Qeq_bool (inject_Z n) 0) eqn:Hq; [|reflexivity].
    apply Qeq_bool_iff in Hq. unfold Qeq in Hq. simpl in Hq. lia.
Qed.

Lemma percent_of_count (part whole : Z) :
  percent_of part whole =
  if whole =? 0 then Fails ZeroDivisionError else Done (rate part whole).
Proof.
  unfold percent_of. rewrite py_div_count.
  destruct (whole =? 0); reflexivity.
Qed.

Lemma rate_zero_iff (b n : Z) : 0 < n -> (rate b n == 0)%Q <-> b = 0.
Proof.
  intros Hn. unfold rate, Qeq, Qdiv, Qmult, Qinv.
  destruct n as [|p|p]; try lia. simpl. split; intros Hb; lia.
Qed.

(** X10.  The headline numbers of the key-metrics tab can be computed
    exactly when the frame has a row; on the empty frame the first division
    raises ZeroDivisionError.  When computed, the bookings are at most the
    searches, the conversion rate lies between 0 and 100, and the number
    shown as mobile searches is a fraction between 0 and 1. *)
Theorem show_key_metrics_defined (df : list row) :
  (show_key_metrics df = Fails ZeroDivisionError <-> df = []) /\
  (forall m, show_key_metrics df = Done m ->
     km_total_searches m = shape0 df /\
     0 <= km_total_bookings m <= km_total_searches m /\
     (0 <= km_booking_rate m <= 100)%Q /\
     (0 <= km_mobile_searches m <= 1)%Q) /\
  (df = [] \/ exists m, show_key_metrics df = Done m).
Proof.
  assert (Hdone : df = [] \/ exists m, show_key_metrics df = Done m).
  { destruct df as [|r df]; [left; reflexivity|right].
    unfold show_key_metrics. rewrite percent_of_count, py_div_count.
    replace (shape0 (r :: df) =? 0) with false; [eexists; reflexivity|].
    symmetry. apply Z.eqb_neq. unfold shape0. simpl List.length. lia. }
  cut ((show_key_metrics df = Fails ZeroDivisionError <-> df = []) /\
       (forall m, show_key_metrics df = Done m ->
          km_total_searches m = shape0 df /\
          0 <= km_total_bookings m <= km_total_searches m /\
          (0 <= km_booking_rate m <= 100)%Q /\
          (0 <= km_mobile_searches m <= 1)%Q)).
  { intros [Hfail Hvals]. split; [exact Hfail|]. split; assumption. }
  clear Hdone.
  unfold show_key_metrics. rewrite percent_of_count, py_div_count.
  pose proof (count_bounds (is_1 is_booking) df) as Hb.
  pose proof (count_bounds (is_1 is_mobile) df) as Hm.
  destruct (shape0 df =? 0) eqn:Hz; cbn [and_then].
  - apply Z.eqb_eq in Hz. split; [|discriminate].
    split; [|reflexivity]. intros _.
    destruct df; [reflexivity|]. unfold shape0 in Hz. simpl in Hz. lia.
  - apply Z.eqb_neq in Hz. split.
    + split; [discriminate|]. intros ->. exfalso. apply Hz. reflexivity.
    + intros m Hdone. inversion Hdone; subst; simpl.
      assert (Hpos : 0 < shape0 df) by lia.
      split; [reflexivity|]. split; [exact Hb|]. split.
      * apply rate_bounds; [exact Hb|exact Hpos].
      * assert (Hq : (0 < inject_Z (shape0 df))%Q)
          by (change (inject_Z 0 < inject_Z (shape0 df))%Q;
              rewrite <- Zlt_Qlt; exact Hpos).
        split.
        -- apply Qle_shift_div_l; [exact Hq|]. rewrite Qmult_0_l.
           change (inject_Z 0 <= inject_Z (count (is_1 is_mobile) df))%Q.
           rewrite <- Zle_Qle. lia.
        -- apply Qle_shift_div_r; [exact Hq|]. rewrite Qmult_1_l.
           rewrite <- Zle_Qle. lia.
Qed.

Lemma gap_rate (other : Q) (b n : Z) :
  0 < n ->
  gap other (rate b n) =
  if b =? 0 then Fails ZeroDivisionError
  else Done ((other - rate b n) / rate b n * 100)%Q.
Proof.
  intros Hn. unfold gap, py_div.
  destruct (b =? 0) eqn:Hb.
  - apply Z.eqb_eq in Hb.
    replace (Qeq_bool (rate b n) 0) with true; [reflexivity|].
    symmetry. apply Qeq_bool_iff. apply rate_zero_iff; assumption.
  - apply Z.eqb_neq in Hb.
    destruct (Qeq_bool (rate b n) 0) eqn:Hq; [|reflexivity].
    apply Qeq_bool_iff in Hq. apply rate_zero_iff in Hq; [|exact Hn].
    contradiction.
Qed.

(** X11.  The rates and gaps of the recommendations tab are computed
    exactly when the frame holds a booked mobile search, a desktop search,
    a booked package search and a non-package search; on every other frame
    one of the divisions raises ZeroDivisionError. *)
Theorem show_recommendations_defined (df : list row) :
  ((exists m, show_recommendations df = Done m) <->
   0 < count (both (is_1 is_mobile) (is_1 is_booking)) df /\
   0 < count (is_0 is_mobile) df /\
   0 < count (both (is_1 is_package) (is_1 is_booking)) df /\
   0 < count (is_0 is_package) df) /\
  (forall err, show_recommendations df = Fails err ->
               err = ZeroDivisionError).
Proof.
  unfold show_recommendations. rewrite !percent_of_count.
  pose proof (count_bounds (is_1 is_mobile) df) as Hm.
  pose proof (count_bounds (is_0 is_mobile) df) as Hd.
  pose proof (count_bounds (is_1 is_package) df) as Hp.
  pose proof (count_bounds (is_0 is_package) df) as Hn.
  pose proof (count_both_le (is_1 is_mobile) (is_1 is_booking) df) as Hmb.
  pose proof (count_both_le (is_1 is_package) (is_1 is_booking) df) as Hpb.
  destruct (shape0 df =? 0) eqn:Hz; cbn [and_then].
  { apply Z.eqb_eq in Hz. split.
    - split; [intros [m Hdone]; discriminate Hdone|lia].
    - intros err Herr. inversion Herr. reflexivity. }
  destruct (count (is_1 is_mobile) df =? 0) eqn:Hz1; cbn [and_then].
  { apply Z.eqb_eq in Hz1. split.
    - split; [intros [m Hdone]; discriminate Hdone|lia].
    - intros err Herr. inversion Herr. reflexivity. }
  destruct (count (is_0 is_mobile) df =? 0) eqn:Hz2; cbn [and_then].
  { apply Z.eqb_eq in Hz2. split.
    - split; [intros [m Hdone]; discriminate Hdone|lia].
    - intros err Herr. inversion Herr. reflexivity. }
  apply Z.eqb_neq in Hz1, Hz2.
  rewrite gap_rate by lia.
  destruct (count (both (is_1 is_mobile) (is_1 is_booking)) df =? 0)
    eqn:Hz3; cbn [and_then].
  { apply Z.eqb_eq in Hz3. split.
    - split; [intros [m Hdone]; discriminate Hdone|lia].
    - intros err Herr. inversion Herr. reflexivity. }
  destruct (count (is_1 is_package) df =? 0) eqn:Hz4; cbn [and_then].
  { apply Z.eqb_eq in Hz4. split.
    - split; [intros [m Hdone]; discriminate Hdone|lia].
    - intros err Herr. inversion Herr. reflexivity. }
  destruct (count (is_0 is_package) df =? 0) eqn:Hz5; cbn [and_then].
  { apply Z.eqb_eq in Hz5. split.
    - split; [intros [m Hdone]; discriminate Hdone|lia].
    - intros err Herr. inversion Herr. reflexivity. }
  apply Z.eqb_neq in Hz3, Hz4, Hz5.
  rewrite gap_rate by lia.
  destruct (count (both (is_1 is_package) (is_1 is_booking)) df =? 0)
    eqn:Hz6; cbn [and_then].
  { apply Z.eqb_eq in Hz6. split.
    - split; [intros [m Hdone]; discriminate Hdone|lia].
    - intros err Herr. inversion Herr. reflexivity. }
  apply Z.eqb_neq in Hz6. split.
  - split; [lia|]. intros _. eexists. reflexivity.
  - intros err Herr. discriminate Herr.
Qed.

(** * Properties of the best and worst combination *)

Lemma Qltb_lt (a b : Q) : Qltb a b = true <-> (a < b)%Q.
Proof.
  unfold Qltb. destruct (Qle_bool b a) eqn:Hle; simpl.
  - apply Qle_bool_iff in Hle. split; [discriminate|].
    intros Hlt. exfalso. exact (Qlt_not_le _ _ Hlt Hle).
  - split; [intros _; apply Qle_bool_false; exact Hle|reflexivity].
Qed.

Section FirstBest.

Context {K : Type}.

Variable better : Q -> Q -> bool.

Let beats (a b : summary_row K) : Prop :=
  better (conversion_rate a) (conversion_rate b) = true.

Hypothesis better_trans : forall a b c,
  better b a = true -> better c b = true -> better c a = true.

Hypothesis better_mixed : forall h a b,
  better h a = false -> better b a = true -> better b h = true.

Lemma first_best_unbeaten (best : summary_row K) (l : list (summary_row K)) :
  first_unbeaten beats (best :: l) (first_best better best l).
Proof.
  revert best. induction l as [|h t IH]; intros best; cbn [first_best].
  - exists [], []. split; [reflexivity|]. split; intros g [].
  - destruct (better (conversion_rate h) (conversion_rate best)) eqn:Hb.
    + specialize (IH h). remember (first_best better h t) as b eqn:Eb.
      clear Eb. destruct IH as (before & after & Heq & Hbefore & Hafter).
      exists (best :: before), after.
      split; [simpl; rewrite Heq; reflexivity|]. split; [|exact Hafter].
      intros g [<-|Hg]; [|auto].
      destruct before as [|x before]; simpl in Heq;
        injection Heq as Hh Ht.
      * rewrite <- Hh. exact Hb.
      * unfold beats. apply (better_trans _ _ _ Hb).
        rewrite Hh. apply Hbefore. left. reflexivity.
    + specialize (IH best). remember (first_best better best t) as b eqn:Eb.
      clear Eb. destruct IH as (before & after & Heq & Hbefore & Hafter).
      destruct before as [|x before]; simpl in Heq;
        injection Heq as Hh Ht.
      * exists [], (h :: after). split; [simpl; congruence|].
        split; [intros g []|].
        intros g [<-|Hg]; [|auto]. unfold beats. rewrite <- Hh, Hb.
        discriminate.
      * exists (x :: h :: before), after.
        split; [simpl; congruence|]. split; [|exact Hafter].
        intros g [<-|[<-|Hg]].
        -- apply Hbefore. left. reflexivity.
        -- unfold beats. apply (better_mixed _ _ _ Hb).
           rewrite Hh. apply Hbefore. left. reflexivity.
        -- apply Hbefore. right. exact Hg.
Qed.

End FirstBest.

Lemma idxmax_unbeaten {K : Type} (l : list (summary_row K))
  (b : summary_row K) :
  idxmax l = Done b -> first_unbeaten higher_rate l b.
Proof.
  destruct l as [|h t]; simpl; intros Hb; [discriminate|].
  injection Hb as <-.
  assert (Htrans : forall a b c : Q,
            Qltb a b = true -> Qltb b c = true -> Qltb a c = true).
  { intros a b c Hab Hbc. apply Qltb_lt in Hab, Hbc. apply Qltb_lt.
    exact (Qlt_trans _ _ _ Hab Hbc). }
  assert (Hmixed : forall x a b : Q,
            Qltb a x = false -> Qltb a b = true -> Qltb x b = true).
  { intros x a b Hxa Hab. apply Qltb_lt in Hab. apply Qltb_lt.
    apply Qle_lt_trans with a; [|exact Hab].
    apply Qnot_lt_le. intros Hc. apply Qltb_lt in Hc. congruence. }
  destruct (first_best_unbeaten (K := K) (fun a b => Qltb b a)
              Htrans Hmixed h t) as (before & after & Heq & Hbefore & Hafter).
  exists before, after. split; [exact Heq|]. split.
  - intros g Hg. apply Qltb_lt. exact (Hbefore g Hg).
  - intros g Hg Hc. apply (Hafter g Hg). apply Qltb_lt. exact Hc.
Qed.

Lemma idxmin_unbeaten {K : Type} (l : list (summary_row K))
  (b : summary_row K) :
  idxmin l = Done b -> first_unbeaten lower_rate l b.
Proof.
  destruct l as [|h t]; simpl; intros Hb; [discriminate|].
  injection Hb as <-.
  assert (Htrans : forall a b c : Q,
            Qltb b a = true -> Qltb c b = true -> Qltb c a = true).
  { intros a b c Hab Hbc. apply Qltb_lt in Hab, Hbc. apply Qltb_lt.
    exact (Qlt_trans _ _ _ Hbc Hab). }
  assert (Hmixed : forall x a b : Q,
            Qltb x a = false -> Qltb b a = true -> Qltb b x = true).
  { intros x a b Hxa Hab. apply Qltb_lt in Hab. apply Qltb_lt.
    apply Qlt_le_trans with a; [exact Hab|].
    apply Qnot_lt_le. intros Hc. apply Qltb_lt in Hc. congruence. }
  destruct (first_best_unbeaten (K := K) (fun a b => Qltb a b)
              Htrans Hmixed h t) as (before & after & Heq & Hbefore & Hafter).
  exists before, after. split; [exact Heq|]. split.
  - intros g Hg. apply Qltb_lt. exact (Hbefore g Hg).
  - intros g Hg Hc. apply (Hafter g Hg). apply Qltb_lt. exact Hc.
Qed.

(** X12.  The best and the worst combination of the device/package view
    exist exactly when some row has a [device_package]; otherwise
    [idxmax] raises ValueError.  The best combination is the first line of
    the view, in key order, whose conversion rate no line exceeds, and the
    worst the first line whose rate no line undercuts. *)
Theorem best_and_worst_combo (df : list row) :
  (best_combo df = Fails ValueError <->
   forall r, In r df -> device_package r = None) /\
  (forall b, best_combo df = Done b ->
             first_unbeaten higher_rate (combined_data df) b) /\
  (forall w, worst_combo df = Done w ->
             first_unbeaten lower_rate (combined_data df) w) /\
  ((forall r, In r df -> device_package r = None) \/
   exists b w, best_combo df = Done b /\ worst_combo df = Done w).
Proof.
  split; [|split; [|split]]; cycle 3.
  { unfold best_combo, worst_combo, combined_data.
    destruct (calculate_conversion_rate df device_package) as [|g l] eqn:Hs.
    - left. apply (summary_empty_iff device_package df). exact Hs.
    - right. simpl. eexists. eexists. split; reflexivity. }
  - rewrite <- (summary_empty_iff device_package df).
    unfold best_combo, combined_data.
    destruct (calculate_conversion_rate df device_package); simpl.
    + split; reflexivity.
    + split; discriminate.
  - intros b. apply idxmax_unbeaten.
  - intros w. apply idxmin_unbeaten.
Qed.

Example best_and_worst_of_scenario :
  option_map group
    (match best_combo scenario_df with Done b => Some b | Fails _ => None end)
  = Some "Desktop, Non-Package" /\
  option_map group
    (match worst_combo scenario_df with Done b => Some b | Fails _ => None end)
  = Some "Mobile, Package".
Proof. split; reflexivity. Qed.

(** * Properties of the modelling subset *)

Lemma filter_length_le {A : Type} (f : A -> bool) (l : list A) :
  (List.length (filter f l) <= List.length l)%nat.
Proof.
  induction l as [|a l IH]; simpl; [lia|]. destruct (f a); simpl; lia.
Qed.

Lemma filter_length_all {A : Type} (f : A -> bool) (l : list A) :
  List.length (filter f l) = List.length l <-> forall a, In a l -> f a = true.
Proof.
  induction l as [|a l IH]; simpl.
  - split; [intros _ a []|reflexivity].
  - pose proof (filter_length_le f l) as Hle.
    destruct (f a) eqn:Ha; simpl.
    + split.
      * intros Hlen x [<-|Hx]; [exact Ha|].
        apply IH; [lia|exact Hx].
      * intros Hall. f_equal. apply IH. auto.
    + split; [lia|]. intros Hall.
      rewrite (Hall a (or_introl eq_refl)) in Ha. discriminate Ha.
Qed.

(** X13.  On a frame of at most 50000 rows the modelling subset of the
    predictive tab can be drawn exactly when every row has both a
    [trip_duration] and a [booking_window]: the sample size is taken from
    the whole frame but the rows are drawn after the incomplete ones are
    dropped, so a single incomplete row makes [sample] raise ValueError. *)
Theorem model_df_needs_complete_rows (draw : Z -> list row -> list row)
  (df : list row) :
  shape0 df <= 50000 ->
  ((exists rows, model_df draw df = Done rows) <->
   forall r, In r df -> complete r = true) /\
  ((exists r, In r df /\ complete r = false) ->
   model_df draw df = Fails ValueError).
Proof.
  intros Hsmall. unfold model_df, sample.
  rewrite Z.min_r by exact Hsmall.
  pose proof (filter_length_le complete df) as Hle.
  pose proof (filter_length_all complete df) as Hall.
  unfold shape0 in *.
  destruct (Z.of_nat (List.length df)
            <=? Z.of_nat (List.length (filter complete df))) eqn:Hn.
  - apply Z.leb_le in Hn.
    assert (Hlen : List.length (filter complete df) = List.length df) by lia.
    split.
    + split; [intros _; apply Hall; exact Hlen|].
      intros _. eexists. reflexivity.
    + intros (r & Hin & Hr). rewrite (proj1 Hall Hlen r Hin) in Hr.
      discriminate Hr.
  - apply Z.leb_gt in Hn. split; [|reflexivity].
    split; [intros [rows Hrows]; discriminate Hrows|].
    intros Hc. apply Hall in Hc. lia.
Qed.

Lemma model_df_needs_complete_rows_witness :
  shape0 sample_df <= 50000 /\
  In row2 sample_df /\ complete row2 = false /\
  model_df (fun n l => firstn (Z.to_nat n) l) sample_df = Fails ValueError.
Proof.
  assert (Hsmall : shape0 sample_df <= 50000) by (vm_compute; discriminate).
  assert (Hin : In row2 sample_df) by (simpl; auto).
  assert (Hinc : complete row2 = false) by reflexivity.
  split; [exact Hsmall|]. split; [exact Hin|]. split; [exact Hinc|].
  apply (model_df_needs_complete_rows
           (fun n l => firstn (Z.to_nat n) l) sample_df Hsmall).
  exists row2. split; [exact Hin|exact Hinc].
Defined.

(** * Properties of the temporal views *)

Section SortByFacts.

Context {A : Type} (key : A -> option Z).

Lemma opt_leb_total (a b : option Z) : opt_leb a b = false -> opt_leb b a = true.
Proof.
  destruct a as [x|], b as [y|]; simpl; try discriminate; try reflexivity.
  intros Hxy. apply Z.leb_gt in Hxy. apply Z.leb_le. lia.
Qed.

Lemma opt_leb_trans (a b c : option Z) :
  opt_leb a b = true -> opt_leb b c = true -> opt_leb a c = true.
Proof.
  destruct a as [x|], b as [y|], c as [z|]; simpl; try discriminate;
    try reflexivity.
  rewrite !Z.leb_le. lia.
Qed.

Lemma insert_by_perm (g : A) (l : list A) :
  Permutation (insert_by key g l) (g :: l).
Proof.
  induction l as [|h t IH]; simpl; [reflexivity|].
  destruct (opt_leb (key g) (key h)); [reflexivity|].
  rewrite IH. apply perm_swap.
Qed.

Lemma insert_by_sorted (g : A) (l : list A) :
  StronglySorted (key_le key) l ->
  StronglySorted (key_le key) (insert_by key g l).
Proof.
  induction l as [|h t IH]; simpl; intros Hs.
  - repeat constructor.
  - inversion Hs as [|? ? Ht Hall]; subst.
    destruct (opt_leb (key g) (key h)) eqn:Hle.
    + constructor; [exact Hs|]. constructor; [exact Hle|].
      rewrite Forall_forall in *. intros x Hx.
      exact (opt_leb_trans _ _ _ Hle (Hall x Hx)).
    + constructor; [apply IH; exact Ht|].
      rewrite Forall_forall in *. intros x Hx.
      apply (Permutation_in _ (insert_by_perm g t)) in Hx.
      destruct Hx as [<-|Hx]; [|auto].
      apply opt_leb_total. exact Hle.
Qed.

Lemma sort_values_by_perm (l : list A) : Permutation (sort_values_by key l) l.
Proof.
  induction l as [|g l IH]; simpl; [reflexivity|].
  rewrite insert_by_perm. constructor. exact IH.
Qed.

Lemma sort_values_by_sorted (l : list A) :
  StronglySorted (key_le key) (sort_values_by key l).
Proof.
  induction l as [|g l IH]; simpl; [constructor|].
  apply insert_by_sorted. exact IH.
Qed.

End SortByFacts.

Lemma position_In (x : string) (order : list string) :
  In x order -> exists i, position x order = Some i.
Proof.
  induction order as [|y rest IH]; simpl; [contradiction|].
  destruct (String.eqb x y) eqn:Hxy; [eauto|].
  intros [Hy|Hin].
  - subst. rewrite String.eqb_refl in Hxy. discriminate Hxy.
  - destruct (IH Hin) as [i ->]. simpl. eauto.
Qed.

Lemma position_inj (x y : string) (order : list string) (i : Z) :
  position x order = Some i -> position y order = Some i -> x = y.
Proof.
  assert (Hnonneg : forall z l j, position z l = Some j -> 0 <= j).
  { intros z l. induction l as [|a l IHl]; simpl; intros j; [discriminate|].
    destruct (String.eqb z a); [intros Hj; inversion Hj; lia|].
    destruct (position z l) as [k|]; simpl; [|discriminate].
    intros Hj. inversion Hj. specialize (IHl k eq_refl). lia. }
  revert i. induction order as [|a rest IH]; simpl; intros i;
    [discriminate|].
  destruct (String.eqb x a) eqn:Hxa, (String.eqb y a) eqn:Hya.
  - apply String.eqb_eq in Hxa, Hya. congruence.
  - intros Hi. inversion Hi; subst.
    destruct (position y rest) as [k|] eqn:Hk; simpl; [|discriminate].
    intros Hj. inversion Hj. pose proof (Hnonneg _ _ _ Hk). lia.
  - destruct (position x rest) as [k|] eqn:Hk; simpl; [|discriminate].
    intros Hi Hj. inversion Hi. inversion Hj.
    pose proof (Hnonneg _ _ _ Hk). lia.
  - destruct (position x rest) as [k|] eqn:Hk; simpl; [|discriminate].
    destruct (position y rest) as [k'|] eqn:Hk'; simpl; [|discriminate].
    intros Hi Hj. inversion Hi. inversion Hj.
    apply (IH k); [reflexivity|f_equal; lia].
Qed.

(** A summary whose keys are all listed, sorted by position in the list. *)
Lemma sorted_by_position (order : list string)
  (l : list (summary_row string)) :
  NoDup (map group l) ->
  (forall g, In g l -> In (group g) order) ->
  StronglySorted (listed_before order)
    (map group (sort_values_by (fun g => position (group g) order) l)).
Proof.
  intros Hnodup Hlisted.
  set (key := fun g : summary_row string => position (group g) order).
  pose proof (sort_values_by_perm key l) as Hperm.
  pose proof (sort_values_by_sorted key l) as Hsorted.
  assert (Hnodup' : NoDup (map group (sort_values_by key l))).
  { apply (Permutation_NoDup (l := map group l)); [|exact Hnodup].
    apply Permutation_map. symmetry. exact Hperm. }
  assert (Hlisted' : forall g, In g (sort_values_by key l) ->
                               In (group g) order).
  { intros g Hg. apply Hlisted. exact (Permutation_in _ Hperm Hg). }
  clear Hperm Hnodup Hlisted.
  induction Hsorted as [|g rest Hrest IH Hall]; simpl; [constructor|].
  inversion Hnodup' as [|? ? Hnotin Hnd]; subst.
  constructor; [apply IH; [exact Hnd|intros; apply Hlisted'; right; auto]|].
  rewrite Forall_forall in *. intros k Hk.
  apply in_map_iff in Hk. destruct Hk as (x & <- & Hx).
  destruct (position_In (group g) order (Hlisted' g (or_introl eq_refl)))
    as [i Hi].
  destruct (position_In (group x) order (Hlisted' x (or_intror Hx)))
    as [j Hj].
  exists i, j. split; [exact Hi|]. split; [exact Hj|].
  specialize (Hall x Hx). unfold key_le, key in Hall.
  rewrite Hi, Hj in Hall. simpl in Hall. apply Z.leb_le in Hall.
  assert (Hne : i <> j).
  { intros ->. apply Hnotin.
    rewrite (position_inj _ _ _ _ Hi Hj). apply in_map. exact Hx. }
  lia.
Qed.

Lemma month_of_bounds (z : Z) : 1 <= snd (fst (civil_from_days z)) <= 12.
Proof.
  unfold civil_from_days. cbv zeta. cbn [fst snd].
  set (doe := z + 719468 - (z + 719468) / 146097 * 146097).
  assert (Hdoe : 0 <= doe < 146097).
  { subst doe.
    pose proof (Z.mod_pos_bound (z + 719468) 146097 ltac:(lia)) as Hm.
    rewrite Z.mod_eq in Hm by lia. lia. }
  clearbody doe.
  set (yoe := (doe - doe / 1460 + doe / 36524 - doe / 146096) / 365).
  set (doy := doe - (365 * yoe + yoe / 4 - yoe / 100)).
  assert (Hdoy : 0 <= doy <= 365).
  { subst doy yoe. Z.to_euclidean_division_equations; lia. }
  clearbody doy.
  destruct ((5 * doy + 2) / 153 <? 10) eqn:Hmp.
  - apply Z.ltb_lt in Hmp. Z.to_euclidean_division_equations; lia.
  - apply Z.ltb_ge in Hmp. Z.to_euclidean_division_equations; lia.
Qed.

Lemma dt_day_name_listed (t : Timestamp) : In (dt_day_name t) day_order.
Proof.
  unfold dt_day_name. apply nth_In.
  pose proof (Z.mod_pos_bound (td_days t + 3) 7 ltac:(lia)) as Hm.
  change (List.length day_order) with 7%nat. lia.
Qed.

Lemma dt_month_name_listed (t : Timestamp) : In (dt_month_name t) month_order.
Proof.
  unfold dt_month_name.
  pose proof (month_of_bounds (td_days t)) as Hm.
  destruct (civil_from_days (td_days t)) as [[y m] d]. simpl in Hm.
  apply nth_In. change (List.length month_order) with 12%nat. lia.
Qed.

Lemma summary_keys_from (by_col : row -> option string) (df : list row)
  (g : summary_row string) :
  In g (calculate_conversion_rate df by_col) ->
  exists r, In r df /\ by_col r = Some (group g).
Proof.
  intros Hg. destruct (summary_line by_col df g Hg) as (_ & _ & _ & Hr).
  exact Hr.
Qed.

Lemma summary_NoDup (by_col : row -> option string) (df : list row) :
  NoDup (map group (calculate_conversion_rate df by_col)).
Proof.
  rewrite summary_groups. apply sorted_NoDup. apply groupby_sorted.
Qed.

(** X14.  The day-of-week view holds the lines of the summary by weekday
    name, rearranged so that the weekdays come in the order Monday to
    Sunday, each at most once; the month view likewise holds the lines of
    the summary by month name in the order January to December. *)
Theorem temporal_views_in_calendar_order (df : list row) :
  Permutation (day_data df) (calculate_conversion_rate df search_day) /\
  StronglySorted (listed_before day_order) (map group (day_data df)) /\
  Permutation (month_data df) (calculate_conversion_rate df search_month) /\
  StronglySorted (listed_before month_order) (map group (month_data df)).
Proof.
  unfold day_data, month_data.
  split; [apply sort_values_by_perm|].
  split; [|split; [apply sort_values_by_perm|]].
  - apply sorted_by_position; [apply summary_NoDup|].
    intros g Hg. destruct (summary_keys_from _ _ _ Hg) as (r & _ & Hr).
    unfold search_day in Hr. destruct (date_time r); [|discriminate].
    inversion Hr. apply dt_day_name_listed.
  - apply sorted_by_position; [apply summary_NoDup|].
    intros g Hg. destruct (summary_keys_from _ _ _ Hg) as (r & _ & Hr).
    unfold search_month in Hr. destruct (date_time r); [|discriminate].
    inversion Hr. apply dt_month_name_listed.
Qed.

Example day_data_of_sample :
  map group (calculate_conversion_rate sample_df search_day)
    = ["Friday"; "Wednesday"] /\
  map group (day_data sample_df) = ["Wednesday"; "Friday"].
Proof. split; reflexivity. Qed.

Lemma dt_hour_bounds (t : Timestamp) : 0 <= dt_hour t < 24.
Proof.
  unfold dt_hour.
  pose proof (Z.mod_pos_bound t ns_per_day ltac:(reflexivity)) as Hm.
  unfold ns_per_day, ns_per_hour in *.
  split.
  - apply Z.div_pos; lia.
  - apply Z.div_lt_upper_bound; lia.
Qed.

Lemma sorted_range_length (l : list Z) (lo hi : Z) :
  StronglySorted Z.lt l -> Forall (fun x => lo <= x < hi) l -> lo <= hi ->
  Z.of_nat (List.length l) <= hi - lo.
Proof.
  intros Hs. revert lo. induction Hs as [|a l Hl IH Hall]; intros lo Hr Hlh.
  - simpl. lia.
  - inversion Hr as [|? ? Ha Hrest]; subst.
    assert (Htail : Forall (fun x => a + 1 <= x < hi) l).
    { rewrite Forall_forall in *. intros x Hx.
      specialize (Hall x Hx). specialize (Hrest x Hx). lia. }
    specialize (IH (a + 1) Htail ltac:(lia)).
    simpl List.length. lia.
Qed.

Lemma dt_hour_in_hour (t : Timestamp) (h : Z) :
  dt_hour t = h <-> in_hour h t = true.
Proof.
  unfold dt_hour, in_hour. cbv zeta.
  rewrite Z.mod_eq by discriminate.
  replace (t - ns_per_day * (t / ns_per_day))
    with (t - t / ns_per_day * ns_per_day) by lia.
  set (s := t - t / ns_per_day * ns_per_day).
  assert (Hpos : 0 < ns_per_hour) by reflexivity.
  rewrite Bool.andb_true_iff, Z.leb_le, Z.ltb_lt. split.
  - intros <-.
    pose proof (Z.mul_div_le s ns_per_hour Hpos).
    pose proof (Z.mul_succ_div_gt s ns_per_hour Hpos). lia.
  - intros [Hlo Hhi]. symmetry.
    apply (Z.div_unique s ns_per_hour h (s - h * ns_per_hour)); lia.
Qed.

Lemma in_group_search_hour (h : Z) (r : row) :
  in_group search_hour h r = searched_in_hour h r.
Proof.
  unfold in_group, search_hour, searched_in_hour.
  destruct (date_time r) as [t|]; [|reflexivity]. simpl.
  destruct (in_hour h t) eqn:Hin.
  - apply key_eqb_eq. apply dt_hour_in_hour. exact Hin.
  - apply key_eqb_neq. intros Heq. apply dt_hour_in_hour in Heq. congruence.
Qed.

(** X15.  The hour-of-day view has one line per hour in which a search was
    made: an hour is a key of the view exactly when the search instant of
    some row lies in that hour of its day, and the [searches] of its line
    count the rows whose search instant does.  The keys are therefore hours
    between 0 and 23; they come in strictly ascending order, so the view
    has at most 24 lines; rows without a search instant are left out. *)
Theorem hour_view_shape (df : list row) :
  Forall (fun h => 0 <= h < 24) (map group (hour_data df)) /\
  StronglySorted Z.lt (map group (hour_data df)) /\
  Z.of_nat (List.length (hour_data df)) <= 24 /\
  sumZ (map searches (hour_data df)) =
    count (fun r => match date_time r with Some _ => true | None => false end)
          df /\
  (forall h, In h (map group (hour_data df)) <->
             exists r, In r df /\ searched_in_hour h r = true) /\
  (forall g, In g (hour_data df) ->
             searches g = count (searched_in_hour (group g)) df).
Proof.
  assert (Hkeys : forall h, In h (map group (hour_data df)) <->
                            exists r, In r df /\ searched_in_hour h r = true).
  { intros h. unfold hour_data. rewrite summary_groups. unfold groupby_agg.
    rewrite fold_keys. simpl. split.
    - intros [[]|(r & Hr & Hh)]. exists r. split; [exact Hr|].
      rewrite <- in_group_search_hour. unfold in_group. rewrite Hh.
      apply key_eqb_refl.
    - intros (r & Hr & Hh). right. exists r. split; [exact Hr|].
      rewrite <- in_group_search_hour in Hh. unfold in_group in Hh.
      destruct (search_hour r) as [k|]; [|discriminate].
      apply key_eqb_eq in Hh. congruence. }
  assert (Hrange : Forall (fun h => 0 <= h < 24) (map group (hour_data df))).
  { apply Forall_forall. intros h Hh. unfold hour_data in Hh.
    rewrite summary_groups in Hh. unfold groupby_agg in Hh.
    apply fold_keys in Hh. destruct Hh as [[]|(r & _ & Hr)].
    unfold search_hour in Hr. destruct (date_time r); [|discriminate].
    inversion Hr. apply dt_hour_bounds. }
  assert (Hsorted : StronglySorted Z.lt (map group (hour_data df))).
  { unfold hour_data. rewrite summary_groups.
    pose proof (groupby_sorted search_hour df) as Hs.
    induction Hs as [|a l _ IH Hall]; constructor; [exact IH|].
    rewrite Forall_forall in *. intros x Hx. specialize (Hall x Hx).
    unfold key_lt in Hall. simpl in Hall. apply Z.compare_lt_iff. exact Hall. }
  split; [exact Hrange|]. split; [exact Hsorted|].
  split; [|split; [|split; [exact Hkeys|]]].
  - pose proof (sorted_range_length _ 0 24 Hsorted Hrange ltac:(lia)) as Hlen.
    rewrite length_map in Hlen. lia.
  - destruct (fold_totals search_hour df []) as [Hc _].
    unfold hour_data, calculate_conversion_rate. rewrite map_map.
    transitivity (total_count (groupby_agg df search_hour)).
    + unfold total_count. f_equal. apply map_ext.
      intros [k [n s]]. reflexivity.
    + unfold groupby_agg. rewrite Hc. simpl. unfold count. f_equal. f_equal.
      apply filter_ext. intros r. unfold keyed, search_hour.
      destruct (date_time r); reflexivity.
  - intros g Hg. unfold hour_data in Hg.
    destruct (summary_line search_hour df g Hg) as (Hs & _).
    rewrite Hs. unfold count, partition_of. f_equal. f_equal.
    apply filter_ext. intros r. apply in_group_search_hour.
Qed.

Example hour_data_of_sample :
  map (fun g => (group g, searches g)) (hour_data sample_df) =
  [ (0, 1); (10, 2) ].
Proof. reflexivity. Qed.

(** * Properties of the monthly data *)

Section MonthlyFacts.

Context {K : Type} `{GroupKey K}.

Variable by_col : row -> option K.

Lemma drop_third_upsert3 (k : K) (b m : Z) (acc : agg3_state) :
  drop_third (upsert3 k b m acc) = upsert k b (drop_third acc).
Proof.
  induction acc as [|[k' [[n s] ms]] rest IH]; simpl; [reflexivity|].
  destruct (key_cmp k k'); simpl; [reflexivity|reflexivity|].
  rewrite IH. reflexivity.
Qed.

Lemma drop_third_fold (df : list row) (acc : agg3_state) :
  drop_third (fold_left (agg3_step by_col) df acc) =
  fold_left (agg_step by_col) df (drop_third acc).
Proof.
  revert acc. induction df as [|r df IH]; intros acc; simpl; [reflexivity|].
  rewrite IH. f_equal. unfold agg3_step, agg_step.
  destruct (by_col r); [apply drop_third_upsert3|reflexivity].
Qed.

Lemma upsert3_ok (k : K) (b m : Z) (acc : agg3_state) :
  flag m -> Forall entry_ok acc -> Forall entry_ok (upsert3 k b m acc).
Proof.
  intros Hm.
  induction acc as [|[k' [[n s] ms]] rest IH]; simpl; intros Hall.
  - constructor; [|constructor]. unfold entry_ok. destruct Hm; lia.
  - inversion Hall as [|? ? He Hrest]; subst.
    destruct (key_cmp k k').
    + constructor; [|exact Hrest]. unfold entry_ok in *. destruct Hm; lia.
    + constructor; [|exact Hall]. unfold entry_ok. destruct Hm; lia.
    + constructor; [exact He|apply IH; exact Hrest].
Qed.

Lemma fold3_ok (df : list row) (acc : agg3_state) :
  (forall r, In r df -> flag (is_mobile r)) ->
  Forall entry_ok acc ->
  Forall entry_ok (fold_left (agg3_step by_col) df acc).
Proof.
  revert acc. induction df as [|r df IH]; intros acc Hflags Hall; simpl;
    [exact Hall|].
  apply IH; [intros x Hx; apply Hflags; right; exact Hx|].
  unfold agg3_step. destruct (by_col r); [|exact Hall].
  apply upsert3_ok; [apply Hflags; left; reflexivity|exact Hall].
Qed.

End MonthlyFacts.

(** X16.  The year-month, searches, bookings and conversion-rate columns of
    [get_monthly_data] are the summary [calculate_conversion_rate] gives
    for the key [year_month], line by line; and on a frame whose
    [is_mobile] flags are 0 or 1, the mobile searches of a month are
    between 0 and its searches and its mobile percentage is between 0 and
    100. *)
Theorem get_monthly_data_refines_summary (df : list row) :
  (forall r, In r df -> flag (is_mobile r)) ->
  map monthly_summary (get_monthly_data df) =
    calculate_conversion_rate df year_month /\
  (forall m, In m (get_monthly_data df) ->
     0 <= m_mobile_searches m <= m_searches m /\
     (0 <= m_mobile_percentage m <= 100)%Q).
Proof.
  intros Hflags. split.
  - unfold get_monthly_data, calculate_conversion_rate, groupby_agg,
      groupby_agg3.
    rewrite map_map.
    change (@nil (string * (Z * Z))) with
      (drop_third (@nil (string * (Z * Z * Z)))).
    rewrite <- drop_third_fold. unfold drop_third. rewrite map_map.
    apply map_ext. intros [k [[n s] ms]]. reflexivity.
  - intros m Hm. unfold get_monthly_data in Hm. apply in_map_iff in Hm.
    destruct Hm as ([k [[n s] ms]] & <- & He). simpl.
    pose proof (fold3_ok year_month df [] Hflags (Forall_nil _)) as Hok.
    rewrite Forall_forall in Hok. specialize (Hok _ He).
    unfold entry_ok in Hok. split; [lia|].
    apply rate_bounds; lia.
Qed.

Lemma get_monthly_data_refines_summary_witness :
  (forall r, In r scenario_df -> flag (is_mobile r)) /\
  map monthly_summary (get_monthly_data scenario_df) =
    calculate_conversion_rate scenario_df year_month.
Proof.
  assert (Hflags : forall r, In r scenario_df -> flag (is_mobile r)).
  { unfold flag. simpl. intros r [<-|[<-|[<-|[<-|[]]]]]; simpl; auto. }
  split; [exact Hflags|].
  exact (proj1 (get_monthly_data_refines_summary scenario_df Hflags)).
Defined.

Lemma digit_shape (n : Z) :
  exists c, digit n = String c EmptyString /\ Ascii.eqb c "-"%char = false.
Proof.
  unfold digit. eexists. split; [reflexivity|].
  pose proof (Z.mod_pos_bound n 10 ltac:(lia)) as Hm.
  assert (Hk : (Z.to_nat (n mod 10) < 10)%nat) by lia.
  destruct (Z.to_nat (n mod 10)) as [|k]; [reflexivity|].
  do 9 (destruct k as [|k]; [reflexivity|]). lia.
Qed.

Lemma pad2_month (m : Z) : 1 <= m <= 12 -> In (pad2 m) categoryarray.
Proof.
  intros Hm.
  assert (Hcases : m = 1 \/ m = 2 \/ m = 3 \/ m = 4 \/ m = 5 \/ m = 6 \/
                   m = 7 \/ m = 8 \/ m = 9 \/ m = 10 \/ m = 11 \/ m = 12)
    by lia.
  repeat (destruct Hcases as [->|Hcases]; [vm_compute; tauto|]).
  subst. vm_compute. tauto.
Qed.

Lemma strftime_Ym_pieces (t : Timestamp) :
  exists y mo,
    split_on "-"%char (strftime_Ym t) = [y; mo] /\
    strftime_Ym t = (y ++ "-" ++ mo)%string /\
    String.length y = 4%nat /\ In mo categoryarray.
Proof.
  unfold strftime_Ym.
  pose proof (month_of_bounds (td_days t)) as Hm.
  destruct (civil_from_days (td_days t)) as [[y m] d]. simpl in Hm.
  exists (pad4 y), (pad2 m).
  split; [|split; [reflexivity|split; [|apply pad2_month; exact Hm]]].
  - unfold pad4, pad2.
    destruct (digit_shape (y / 100 / 10)) as (c1 & -> & E1).
    destruct (digit_shape (y / 100)) as (c2 & -> & E2).
    destruct (digit_shape (y / 10)) as (c3 & -> & E3).
    destruct (digit_shape y) as (c4 & -> & E4).
    destruct (digit_shape (m / 10)) as (c5 & -> & E5).
    destruct (digit_shape m) as (c6 & -> & E6).
    simpl. rewrite E1, E2, E3, E4, E5, E6. reflexivity.
  - unfold pad4, pad2.
    destruct (digit_shape (y / 100 / 10)) as (c1 & -> & _).
    destruct (digit_shape (y / 100)) as (c2 & -> & _).
    destruct (digit_shape (y / 10)) as (c3 & -> & _).
    destruct (digit_shape y) as (c4 & -> & _).
    reflexivity.
Qed.

Lemma monthly_keys (df : list row) (m : monthly_row) :
  In m (get_monthly_data df) ->
  m_year m = str_split_get 0 (m_year_month m) /\
  m_month m = str_split_get 1 (m_year_month m) /\
  exists r, In r df /\ year_month r = Some (m_year_month m).
Proof.
  unfold get_monthly_data. rewrite in_map_iff.
  intros ([k [[n s] ms]] & <- & He). simpl.
  split; [reflexivity|]. split; [reflexivity|].
  assert (Hk : In k (keys (drop_third (groupby_agg3 df year_month)))).
  { unfold keys, drop_third. rewrite map_map. apply in_map_iff.
    exists (k, (n, s, ms)). split; [reflexivity|exact He]. }
  unfold groupby_agg3 in Hk. rewrite drop_third_fold in Hk.
  apply fold_keys in Hk. destruct Hk as [[]|Hk]. exact Hk.
Qed.

(** X17.  In every line of [get_monthly_data] on a loaded frame, the year
    and month columns are present, the year has four characters, the month
    is one of the twelve labels "01" to "12" the year-over-year chart
    lists, and joining them with a dash gives back the year-month key. *)
Theorem monthly_year_and_month (csv : list raw_row) (df : list row)
  (m : monthly_row) :
  load_data csv = Ok df -> In m (get_monthly_data df) ->
  exists y mo,
    m_year m = Some y /\ m_month m = Some mo /\
    m_year_month m = (y ++ "-" ++ mo)%string /\
    String.length y = 4%nat /\ In mo categoryarray.
Proof.
  intros Hload Hm.
  destruct (monthly_keys df m Hm) as (Hy & Hmo & r & Hr & Hkey).
  destruct (load_data_In _ _ _ Hload Hr) as (raw & _ & Hd).
  apply derive_columns in Hd.
  destruct Hd as (_ & _ & _ & _ & _ & _ & _ & _ & Hym & _).
  rewrite Hym in Hkey. destruct (date_time r) as [t|]; [|discriminate].
  simpl in Hkey. inversion Hkey as [Hk].
  destruct (strftime_Ym_pieces t) as (y & mo & Hsplit & Hjoin & Hlen & Hin).
  exists y, mo. rewrite Hy, Hmo. unfold str_split_get.
  rewrite <- Hk, Hsplit. simpl.
  repeat split; [exact Hjoin|exact Hlen|exact Hin].
Qed.

Lemma monthly_year_and_month_witness :
  load_data sample_csv = Ok sample_df /\
  get_monthly_data sample_df <> [] /\
  Forall (fun m => exists y mo,
            m_year m = Some y /\ m_month m = Some mo /\
            m_year_month m = (y ++ "-" ++ mo)%string /\
            String.length y = 4%nat /\ In mo categoryarray)
         (get_monthly_data sample_df).
Proof.
  assert (Hload : load_data sample_csv = Ok sample_df) by reflexivity.
  split; [exact Hload|]. split; [vm_compute; discriminate|].
  apply Forall_forall. intros m Hm.
  exact (monthly_year_and_month sample_csv sample_df m Hload Hm).
Defined.

Example monthly_data_of_sample :
  map (fun m => (m_year_month m, m_searches m, m_bookings m,
                 m_mobile_searches m, m_year m, m_month m))
      (get_monthly_data sample_df) =
  [ ("2014-01", 3, 1, 1, Some "2014", Some "01") ].
Proof. reflexivity. Qed.
